(** * Etcher GUI bootstrap (src/lib/gui/etcher.ts)

    A shallow embedding of the Electron main-process module of Etcher: the
    startup ('ready') listener with its three environment guards, the two
    preference gates, the creation of the main window with its five window
    listeners, and the application-level listeners.

    Listeners are functions on an explicit program state.  Every call to a
    collaborator outside the module (analytics, dialog, settings store, menu
    builder, auto-updater, Electron's app and window objects) is appended to
    a chronological trace, so that ordering properties can be stated.  A
    listener runs to completion once dispatched: suspension at [await] is
    not modelled; no run of the startup listener gets as far as a
    suspension, since each of its paths throws first (lines 63, 72, 84).
    The two statements run when the module is loaded (the
    registration of the etcher: scheme and the user-agent fallback, lines
    35-49) touch none of this state and are left out.

    The text of the module is damaged in four places: the block of lines
    94-96 ends in a bare [await]; the closing of the 'ready-to-show'
    registration (line 158) and of the startup listener (line 177) lack
    their [);]; the file stops inside its last listener (line 265).  Each
    block is read as closed where it ends; the statement cut at line 265 is
    read as in the eight listeners with the same text before it. *)

From Stdlib Require Import ZArith NArith Ascii String List Bool.
From stdpp Require Import base option list strings gmap.
Import ListNotations.

Local Open Scope string_scope.
Local Open Scope list_scope.
Local Open Scope Z_scope.

(** ** The host environment read by the module *)

(** Values the module reads but does not define.  [GENERAL_ERROR] is the
    constant of that name imported from ../shared/exit-codes and
    [__dirname] the directory of the module; both are absent from the source
    tree, so they enter as parameters.  [os_release] is the operating-system
    version (what [os.release()] reports): no statement of the module
    reads it, it is here only so that properties about the OS version can be
    stated. *)
Record env := {
  process_arch : string;
  process_platform : string;
  os_release : string;
  NODE_ENV : option string;
  settings : gmap string bool;
  GENERAL_ERROR : Z;
  __dirname : string
}.

(** [import { platform } from 'os']: [os.platform()] reports the same
    identifier as [process.platform], and not a version number. *)
Definition platform (E : env) : string := process_platform E.

(** Line 33. *)
Definition isDevelopment (E : env) : bool :=
  bool_decide (NODE_ENV E = Some "development").

(** [Array.prototype.includes] on an array of strings. *)
Definition includes (xs : list string) (x : string) : bool :=
  existsb (String.eqb x) xs.

Definition SUPPORTED_ARCHITECTURES : list string := ["armv7l"; "x64"].
Definition SUPPORTED_PLATFORMS : list string := ["darwin"; "linux"; "win32"].

(** Lines 78-82. *)
Definition MINIMUM_SUPPORTED_VERSIONS : gmap string string :=
  {[ "darwin" := "10.11.0"; "linux" := "3.10.0"; "win32" := "6.1.0" ]}.

(** ** Exceptions *)

(** The ways a statement of the module can throw: two [TypeError]s, and
    the [ReferenceError] of reading an identifier that nothing binds. *)
Inductive exn :=
| NullDereference (member : string)   (* reading a member of null/undefined *)
| InvalidVersion (version : option string)   (* semver: Invalid Version *)
| ReferenceError (name : string).     (* name is not defined *)

Inductive outcome (A : Type) :=
| Next (a : A)        (* fall through to the next statement *)
| Return              (* [return;] *)
| Throw (e : exn).
Arguments Next {A} a.
Arguments Return {A}.
Arguments Throw {A} e.

(** ** The semver collaborator *)

(** The npm package semver, as far as line 84 uses it. *)

Module semver.

Definition is_digit (c : ascii) : bool :=
  ((48 <=? N_of_ascii c) && (N_of_ascii c <=? 57))%N.

Fixpoint digits_value (acc : N) (s : string) : option N :=
  match s with
  | EmptyString => Some acc
  | String c s' =>
      if is_digit c
      then digits_value (10 * acc + (N_of_ascii c - 48))%N s'
      else None
  end.

(** A numeric identifier: [0|[1-9]\d*]. *)
Definition numeric_identifier (s : string) : option N :=
  match s with
  | EmptyString => None
  | String "0" EmptyString => Some 0%N
  | String "0" _ => None
  | _ => digits_value 0 s
  end.

(** Cut a string at every dot; [cur] is the piece being read, reversed. *)
Fixpoint split_dots (cur : string) (s : string) : list string :=
  match s with
  | EmptyString => [String.rev cur]
  | String "." s' => String.rev cur :: split_dots EmptyString s'
  | String c s' => split_dots (String c cur) s'
  end.

(** The MAJOR.MINOR.PATCH core of the strict grammar.  Pre-release and
    build suffixes, a leading [v], surrounding blanks and the upper bound
    on each number are not read: the strings the module passes are the
    three platform identifiers of its allow-list and the three entries of
    its table, and none of them has any of these. *)
Definition parse (v : string) : option (N * N * N) :=
  match split_dots EmptyString v with
  | [a; b; c] =>
      ma ← numeric_identifier a;
      mi ← numeric_identifier b;
      pa ← numeric_identifier c;
      Some (ma, mi, pa)
  | _ => None
  end.

Definition compare_lt (x y : N * N * N) : bool :=
  let '(a1, b1, c1) := x in
  let '(a2, b2, c2) := y in
  ((a1 <? a2) || ((a1 =? a2) && ((b1 <? b2) || ((b1 =? b2) && (c1 <? c2)))))%N.

(** [semver.lt(a, b)] builds a SemVer from [a], then one from [b], and
    throws TypeError (Invalid Version) at the first that does not parse;
    [None] stands for [undefined]. *)
Definition lt (a : string) (b : option string) : outcome bool :=
  match parse a with
  | None => Throw (InvalidVersion (Some a))
  | Some x =>
      match b with
      | None => Throw (InvalidVersion None)
      | Some b' =>
          match parse b' with
          | None => Throw (InvalidVersion b)
          | Some y => Next (compare_lt x y)
          end
      end
  end.

End semver.


(** ** Program state *)

(** The [webPreferences] object of lines 115-132. *)
Record web_preferences := {
  nodeIntegration : bool;
  contextIsolation : bool;
  webviewTag : bool;
  sandbox : bool;
  nativeWindowOpen : bool;
  enableRemoteModule : bool
}.

(** The options object passed to [new BrowserWindow] (lines 106-133). *)
Record window_options := {
  width : Z;
  height : Z;
  show : bool;
  minWidth : Z;
  minHeight : Z;
  backgroundColor : string;
  title : string;
  titleBarStyle : string;
  webPreferences : web_preferences
}.

(** The five closures that the startup listener registers on the window it
    creates (lines 147-176), named by the event they are registered for. *)
Inductive window_listener :=
| OnClosed | OnReadyToShow | OnShow | OnHide | OnMinimize.

#[global] Instance window_listener_eq_dec : EqDecision window_listener.
Proof. solve_decision. Defined.

(** A BrowserWindow object: the options it was built from, whether it is
    on screen, and its listeners in registration order. *)
Record window := {
  options : window_options;
  visible : bool;
  listeners : list (string * window_listener)
}.

(** [let mainWindow: BrowserWindow | null;] (line 53).  The declaration has
    no initialiser, so the variable holds [undefined] until line 106 assigns
    it; line 151 stores [null]. *)
Inductive handle := Undefined | Null | Ref (id : nat).

(** Calls into collaborators, in the order they happen. *)
Inductive effect :=
| LogException (message : string)          (* logException(new Error(message)) *)
| AppExit (code : Z)                       (* app.exit(code) *)
| AppQuit                                  (* app.quit() *)
| SettingsGet (key : string)               (* settings.get(key) *)
| NewBrowserWindow (id : nat) (o : window_options)
| BuildWindowMenu (h : handle)             (* buildWindowMenu(mainWindow) *)
| LoadURL (id : nat) (url : string)        (* window.loadURL(url) *)
| OpenDevTools (id : nat)                  (* window.webContents.openDevTools() *)
| WindowOn (id : nat) (event : string) (l : window_listener)
| WindowShow (id : nat)                    (* window.show() *)
| WindowHide (id : nat)                    (* window.hide() *)
| CheckForUpdates                          (* autoUpdater.checkForUpdates() *)
| PreventDefault.                          (* event.preventDefault() *)

(** [windows] is the heap of BrowserWindow objects and [allocated] the
    number of objects built so far; [autoDownload] and
    [autoInstallOnAppQuit] are the two properties of the [autoUpdater]
    object; [defaultPrevented] belongs to the event object of the
    application event being dispatched. *)
Record state := {
  mainWindow : handle;
  windows : gmap nat window;
  allocated : nat;
  autoDownload : bool;
  autoInstallOnAppQuit : bool;
  defaultPrevented : bool;
  trace : list effect
}.

(** The state when the module has been loaded and no listener has run.
    The two updater flags start at electron-updater's defaults. *)
Definition initial_state : state :=
  {| mainWindow := Undefined; windows := ∅; allocated := 0%nat;
     autoDownload := true; autoInstallOnAppQuit := true;
     defaultPrevented := false; trace := [] |}.

Definition set_mainWindow (h : handle) (s : state) : state :=
  {| mainWindow := h; windows := windows s; allocated := allocated s;
     autoDownload := autoDownload s;
     autoInstallOnAppQuit := autoInstallOnAppQuit s;
     defaultPrevented := defaultPrevented s; trace := trace s |}.

Definition set_windows (ws : gmap nat window) (s : state) : state :=
  {| mainWindow := mainWindow s; windows := ws; allocated := allocated s;
     autoDownload := autoDownload s;
     autoInstallOnAppQuit := autoInstallOnAppQuit s;
     defaultPrevented := defaultPrevented s; trace := trace s |}.

Definition set_allocated (n : nat) (s : state) : state :=
  {| mainWindow := mainWindow s; windows := windows s; allocated := n;
     autoDownload := autoDownload s;
     autoInstallOnAppQuit := autoInstallOnAppQuit s;
     defaultPrevented := defaultPrevented s; trace := trace s |}.

Definition set_autoDownload (b : bool) (s : state) : state :=
  {| mainWindow := mainWindow s; windows := windows s;
     allocated := allocated s; autoDownload := b;
     autoInstallOnAppQuit := autoInstallOnAppQuit s;
     defaultPrevented := defaultPrevented s; trace := trace s |}.

Definition set_autoInstallOnAppQuit (b : bool) (s : state) : state :=
  {| mainWindow := mainWindow s; windows := windows s;
     allocated := allocated s; autoDownload := autoDownload s;
     autoInstallOnAppQuit := b;
     defaultPrevented := defaultPrevented s; trace := trace s |}.

Definition set_defaultPrevented (b : bool) (s : state) : state :=
  {| mainWindow := mainWindow s; windows := windows s;
     allocated := allocated s; autoDownload := autoDownload s;
     autoInstallOnAppQuit := autoInstallOnAppQuit s;
     defaultPrevented := b; trace := trace s |}.

Definition log (e : effect) (s : state) : state :=
  {| mainWindow := mainWindow s; windows := windows s;
     allocated := allocated s; autoDownload := autoDownload s;
     autoInstallOnAppQuit := autoInstallOnAppQuit s;
     defaultPrevented := defaultPrevented s; trace := trace s ++ [e] |}.

Definition set_visible (b : bool) (w : window) : window :=
  {| options := options w; visible := b; listeners := listeners w |}.

Definition add_listener (event : string) (l : window_listener) (w : window)
  : window :=
  {| options := options w; visible := visible w;
     listeners := listeners w ++ [(event, l)] |}.

(** ** Statements as state transformers *)

Definition M (A : Type) : Type := state → outcome A * state.

Definition ret {A} (a : A) : M A := λ s, (Next a, s).

Definition bind {A B} (c : M A) (k : A → M B) : M B :=
  λ s, match c s with
       | (Next a, s') => k a s'
       | (Return, s') => (Return, s')
       | (Throw e, s') => (Throw e, s')
       end.

Definition return_ {A} : M A := λ s, (Return, s).
Definition throw {A} (e : exn) : M A := λ s, (Throw e, s).
Definition modify (f : state → state) : M unit := λ s, (Next tt, f s).
Definition call (e : effect) : M unit := modify (log e).

(** The result of a pure collaborator call joins the control flow. *)
Definition lift {A} (o : outcome A) : M A := λ s, (o, s).

(** A listener body seen from its caller: falling off the end and
    [return;] are the same. *)
Definition body (c : M unit) : M unit :=
  λ s, match c s with
       | (Return, s') => (Next tt, s')
       | r => r
       end.

Declare Scope stmt_scope.
Delimit Scope stmt_scope with stmt.
Notation "'let*' x ':=' c 'in' k" := (bind c (λ x, k))
  (at level 10, x name, c at level 100, k at level 200) : stmt_scope.
Notation "c1 ';;;' c2" := (bind c1 (λ _, c2))
  (at level 100, c2 at level 200, right associativity) : stmt_scope.
Local Open Scope stmt_scope.

(** ** Collaborator calls and window methods *)

(** Modelled from the spec: ./app/models/settings is not in the source
    tree; the spec describes it as the store of persisted preferences,
    read by key.  [await settings.get(key)] is the stored value, [None]
    for [undefined]. *)
Definition settings_get (E : env) (key : string) : M (option bool) :=
  call (SettingsGet key) ;;; ret (settings E !! key).

(** JavaScript truthiness of what [settings_get] returns. *)
Definition truthy (v : option bool) : bool := default false v.

(** [mainWindow.show()] and [mainWindow.hide()] on the global handle: a
    member read of [undefined] or [null] throws. *)
Definition mainWindow_show : M unit :=
  λ s, match mainWindow s with
       | Ref id =>
           (Next tt, log (WindowShow id)
                       (set_windows (alter (set_visible true) id (windows s)) s))
       | _ => (Throw (NullDereference "show"), s)
       end.

Definition mainWindow_hide : M unit :=
  λ s, match mainWindow s with
       | Ref id =>
           (Next tt, log (WindowHide id)
                       (set_windows (alter (set_visible false) id (windows s)) s))
       | _ => (Throw (NullDereference "hide"), s)
       end.

(** [mainWindow.on(event, l)], used right after line 106 assigned the
    handle. *)
Definition mainWindow_on (event : string) (l : window_listener) : M unit :=
  λ s, match mainWindow s with
       | Ref id =>
           (Next tt, log (WindowOn id event l)
                       (set_windows (alter (add_listener event l) id (windows s)) s))
       | _ => (Throw (NullDereference "on"), s)
       end.

(** [await osDialog.showErrorBox(message)] (lines 63, 72, 87).  The module
    neither imports nor declares [osDialog]: reading the identifier throws
    ReferenceError, before anything is shown or awaited. *)
Definition osDialog_showErrorBox (message : string) : M unit :=
  throw (ReferenceError "osDialog").

(** [event.preventDefault()]. *)
Definition preventDefault : M unit :=
  call PreventDefault ;;; modify (set_defaultPrevented true).

(** ** The startup listener, lines 58-177 *)

(** Lines 59-66. *)
Definition architecture_guard (E : env) : M unit :=
  if negb (includes SUPPORTED_ARCHITECTURES (process_arch E)) then
    let message :=
      "Etcher does not support the current architecture: " +:+ process_arch E in
    call (LogException message) ;;;
    osDialog_showErrorBox message ;;;
    call (AppExit (GENERAL_ERROR E)) ;;;
    return_
  else ret tt.

(** Lines 68-75. *)
Definition platform_guard (E : env) : M unit :=
  if negb (includes SUPPORTED_PLATFORMS (process_platform E)) then
    let message :=
      "Etcher does not support the current operating system: "
        +:+ process_platform E in
    call (LogException message) ;;;
    osDialog_showErrorBox message ;;;
    call (AppExit (GENERAL_ERROR E)) ;;;
    return_
  else ret tt.

(** Lines 77-90.  The first argument of [semver.lt] is [platform()]. *)
Definition version_guard (E : env) : M unit :=
  let minimumVersion := MINIMUM_SUPPORTED_VERSIONS !! process_platform E in
  let* older := lift (semver.lt (platform E) minimumVersion) in
  if older then
    let message :=
      "Etcher does not support " +:+ process_platform E
        +:+ " versions older than " +:+ default "undefined" minimumVersion in
    call (LogException message) ;;;
    osDialog_showErrorBox message ;;;
    call (AppExit (GENERAL_ERROR E)) ;;;
    return_
  else ret tt.

(** Lines 92-96.  The block under the condition holds a comment and a bare
    [await] with no operand: it calls nothing. *)
Definition errorReporting_gate (E : env) : M unit :=
  let* errorReporting := settings_get E "errorReporting" in
  if negb (truthy errorReporting) && negb (isDevelopment E) then
    ret tt
  else ret tt.

(** Lines 98-103. *)
Definition updatesEnabled_gate (E : env) : M unit :=
  let* updatesEnabled := settings_get E "updatesEnabled" in
  if negb (truthy updatesEnabled) then
    modify (set_autoDownload false) ;;;
    modify (set_autoInstallOnAppQuit false)
  else ret tt.

(** The literal of lines 106-133. *)
Definition main_window_options : window_options :=
  {| width := 1280; height := 720; show := false;
     minWidth := 1280; minHeight := 720;
     backgroundColor := "#ffffff"; title := "Etcher";
     titleBarStyle := "hiddenInset";
     webPreferences :=
       {| nodeIntegration := true; contextIsolation := false;
          webviewTag := true; sandbox := true; nativeWindowOpen := true;
          enableRemoteModule := true |} |}.

(** [mainWindow = new BrowserWindow(o)]: a new object, on screen only if
    [o] asks for it, with no listener yet. *)
Definition new_BrowserWindow (o : window_options) : M unit :=
  λ s, let id := allocated s in
       let w := {| options := o; visible := show o; listeners := [] |} in
       (Next tt,
        set_mainWindow (Ref id)
          (log (NewBrowserWindow id o)
             (set_allocated (S id) (set_windows (<[id := w]> (windows s)) s)))).

(** A method call [mainWindow.member...(...)] that only reaches a
    collaborator. *)
Definition mainWindow_call (member : string) (f : nat → effect) : M unit :=
  λ s, match mainWindow s with
       | Ref id => (Next tt, log (f id) s)
       | _ => (Throw (NullDereference member), s)
       end.

Definition index_url (E : env) : string :=
  "file://" +:+ __dirname E +:+ "/app/index.html".

(** [buildWindowMenu(mainWindow)] hands over whatever the handle holds. *)
Definition buildWindowMenu : M unit :=
  λ s, (Next tt, log (BuildWindowMenu (mainWindow s)) s).

(** Lines 105-176. *)
Definition create_main_window (E : env) : M unit :=
  new_BrowserWindow main_window_options ;;;
  buildWindowMenu ;;;
  mainWindow_call "loadURL" (λ id, LoadURL id (index_url E)) ;;;
  (if isDevelopment E
   then mainWindow_call "webContents" OpenDevTools
   else ret tt) ;;;
  mainWindow_on "closed" OnClosed ;;;
  mainWindow_on "ready-to-show" OnReadyToShow ;;;
  mainWindow_on "show" OnShow ;;;
  mainWindow_on "hide" OnHide ;;;
  mainWindow_on "minimize" OnMinimize.

(** Lines 92-176: what follows the three guards. *)
Definition configure_and_open (E : env) : M unit :=
  errorReporting_gate E ;;;
  updatesEnabled_gate E ;;;
  create_main_window E.

(** The whole listener. *)
Definition ready (E : env) : M unit :=
  body (architecture_guard E ;;;
        platform_guard E ;;;
        version_guard E ;;;
        configure_and_open E).

(** ** Window listeners, lines 147-176 *)

Definition run_window_listener (l : window_listener) : M unit :=
  match l with
  | OnClosed => modify (set_mainWindow Null)
  | OnReadyToShow => mainWindow_show
  | OnShow => call CheckForUpdates
  | OnHide => call AppQuit
  | OnMinimize => mainWindow_hide
  end.

(** ** Application listeners, lines 179-265 *)

Inductive app_listener := Ready | WindowAllClosed | Activate | QuitGuard.

(** Lines 180-186. *)
Definition window_all_closed (E : env) : M unit :=
  if negb (String.eqb (process_platform E) "darwin") then call AppQuit
  else ret tt.

(** An async function seen from its caller: what it throws stays in the
    promise it returns.  The body is run to its end in one go.  The startup
    listener is the only async function of the module, and it throws on
    each of its paths before it suspends at an [await]. *)
Definition async (c : M unit) : M unit := λ s, (Next tt, snd (c s)).

(** Lines 188-194.  [app.emit('ready')] calls the startup listener, the
    only one registered for that event.  The test is [=== null]: it is
    false while the handle holds [undefined]. *)
Definition activate (E : env) : M unit :=
  λ s, match mainWindow s with
       | Null => async (ready E) s
       | _ => (Next tt, s)
       end.

(** The body shared by the nine listeners of lines 197-265. *)
Definition quit_guard : M unit :=
  preventDefault ;;;
  mainWindow_hide.

Definition run_app_listener (E : env) (l : app_listener) : M unit :=
  match l with
  | Ready => async (ready E)
  | WindowAllClosed => window_all_closed E
  | Activate => activate E
  | QuitGuard => quit_guard
  end.

(** Every [app.on] of the module, in registration order.  The text of the
    last registration (line 261) stops after [mainWindow], in the middle of
    the statement that its eight siblings spell [mainWindow.hide()]; it is
    read as that statement. *)
Definition app_listeners : list (string * app_listener) :=
  [ ("ready", Ready);
    ("window-all-closed", WindowAllClosed);
    ("activate", Activate);
    ("before-quit", QuitGuard); ("will-quit", QuitGuard); ("quit", QuitGuard);
    ("before-quit", QuitGuard); ("will-quit", QuitGuard); ("quit", QuitGuard);
    ("before-quit", QuitGuard); ("will-quit", QuitGuard); ("quit", QuitGuard) ].

Definition QUIT_EVENTS : list string := ["before-quit"; "will-quit"; "quit"].

(** ** Event dispatch *)

(** [EventEmitter.emit]: the listeners registered for the event run in
    registration order; an exception leaves the remaining ones uncalled. *)
Definition registered {L} (event : string) (ls : list (string * L)) : list L :=
  map snd (filter (λ p, fst p = event) ls).

Fixpoint run_all (cs : list (M unit)) : M unit :=
  match cs with
  | [] => ret tt
  | c :: cs' => body c ;;; run_all cs'
  end.

(** An application event arrives with a fresh event object. *)
Definition emit_app (E : env) (event : string) : M unit :=
  modify (set_defaultPrevented false) ;;;
  run_all (map (run_app_listener E) (registered event app_listeners)).

(** A window event fires on one window object and runs that object's
    listeners; an object that is not on the heap has none. *)
Definition emit_window (id : nat) (event : string) : M unit :=
  λ s, match windows s !! id with
       | Some w =>
           run_all (map run_window_listener (registered event (listeners w))) s
       | None => (Next tt, s)
       end.

Inductive host_event :=
| AppEvent (event : string)
| WindowEvent (id : nat) (event : string).

Definition dispatch (E : env) (ev : host_event) : M unit :=
  match ev with
  | AppEvent event => emit_app E event
  | WindowEvent id event => emit_window id event
  end.

(** The event loop: events are served one after the other; an exception
    that escapes a listener is reported by the host and the loop goes on.
    Events are served even after [app.exit], which can only add runs. *)
Definition deliver (E : env) (evs : list host_event) (s : state) : state :=
  fold_left (λ s ev, snd (dispatch E ev s)) evs s.


(** The listeners that [create_main_window] leaves on the window it builds. *)
Definition main_window_listeners : list (string * window_listener) :=
  [ ("closed", OnClosed); ("ready-to-show", OnReadyToShow); ("show", OnShow);
    ("hide", OnHide); ("minimize", OnMinimize) ].

(** The window object once lines 105-176 have run. *)
Definition main_window : window :=
  {| options := main_window_options; visible := false;
     listeners := main_window_listeners |}.

(** Every window object on the heap carries the listeners of lines
    147-176, as all objects built by the module do. *)
Definition installed (s : state) : Prop :=
  map_Forall (λ _ w, listeners w = main_window_listeners) (windows s).

Definition updates_off (s : state) : Prop :=
  autoDownload s = false ∧ autoInstallOnAppQuit s = false.

(** A host on which all three guards are meant to pass, with both
    preferences switched off: Linux 3.9.0 on x64. *)
Definition linux_3_9_0 : env :=
  {| process_arch := "x64"; process_platform := "linux";
     os_release := "3.9.0"; NODE_ENV := None;
     settings := {[ "errorReporting" := false; "updatesEnabled" := false ]};
     GENERAL_ERROR := 1; __dirname := "/opt/etcher" |}.

(** The same host with a processor outside the allow-list. *)
Definition linux_ia32 : env :=
  {| process_arch := "ia32"; process_platform := "linux";
     os_release := "5.15.0"; NODE_ENV := None;
     settings := ∅; GENERAL_ERROR := 1; __dirname := "/opt/etcher" |}.

(** What lines 105-176 add to the trace when they build window [id]. *)
Definition creation_trace (E : env) (id : nat) : list effect :=
  [ NewBrowserWindow id main_window_options;
    BuildWindowMenu (Ref id);
    LoadURL id (index_url E) ]
  ++ (if isDevelopment E then [OpenDevTools id] else [])
  ++ [ WindowOn id "closed" OnClosed;
       WindowOn id "ready-to-show" OnReadyToShow;
       WindowOn id "show" OnShow;
       WindowOn id "hide" OnHide;
       WindowOn id "minimize" OnMinimize ].

(** Window [id] is on the heap and off screen. *)
Definition hidden (id : nat) (s : state) : Prop :=
  ∃ w, windows s !! id = Some w ∧ visible w = false.

(** A statement respects a relation on states when the relation holds
    between the state it starts from and the state it leaves, whatever its
    outcome. *)
Definition respects {A} (R : state → state → Prop) (c : M A) : Prop :=
  ∀ s, R s (snd (c s)).

(** Three relations that every listener is shown to respect. *)

Definition keeps_updates_off (s s' : state) : Prop :=
  updates_off s → updates_off s'.

Definition keeps_installed (s s' : state) : Prop :=
  installed s → installed s'.

Definition keeps_hidden (id : nat) (s s' : state) : Prop :=
  (allocated s ≤ allocated s')%nat ∧
  ((id < allocated s)%nat → hidden id s → hidden id s').

(** The state once lines 92-176 have built the window and that window has
    been closed: the handle holds [null]. *)
Definition after_close : state :=
  snd (emit_window 0 "closed"
         (snd (configure_and_open linux_3_9_0 initial_state))).

(** ** Definitions for the further properties *)

(** The same host with one stored preference changed; [None] removes the
    key. *)
Definition with_setting (key : string) (v : option bool) (E : env) : env :=
  {| process_arch := process_arch E;
     process_platform := process_platform E;
     os_release := os_release E;
     NODE_ENV := NODE_ENV E;
     settings := match v with
                 | Some b => <[key := b]> (settings E)
                 | None => delete key (settings E)
                 end;
     GENERAL_ERROR := GENERAL_ERROR E;
     __dirname := __dirname E |}.

(** What a window object is built from and what is registered on it. *)
Definition shape (w : window) : window_options * list (string * window_listener) :=
  (options w, listeners w).

(** [s'] has the window objects of [s], each built and wired as in [s],
    and the updater flags of [s]. *)
Definition same_frame (s s' : state) : Prop :=
  allocated s' = allocated s ∧
  autoDownload s' = autoDownload s ∧
  autoInstallOnAppQuit s' = autoInstallOnAppQuit s ∧
  ∀ id, shape <$> windows s' !! id = shape <$> windows s !! id.

(** No window object exists and the handle was never assigned. *)
Definition no_window (s : state) : Prop :=
  mainWindow s = Undefined ∧ windows s = ∅.

Definition keeps_no_window (s s' : state) : Prop :=
  no_window s → no_window s'.

(** An x64 host whose operating system is outside the allow-list. *)
Definition freebsd_x64 : env :=
  {| process_arch := "x64"; process_platform := "freebsd";
     os_release := "13.2.0"; NODE_ENV := None;
     settings := ∅; GENERAL_ERROR := 1; __dirname := "/opt/etcher" |}.

(** A development build on Windows 10, updates left on. *)
Definition win32_development : env :=
  {| process_arch := "x64"; process_platform := "win32";
     os_release := "10.0.19045"; NODE_ENV := Some "development";
     settings := {[ "updatesEnabled" := true ]};
     GENERAL_ERROR := 1; __dirname := "C:/etcher" |}.

(** A state with two window objects wired by the module; the handle holds
    the second one, which is on screen. *)
Definition two_windows : state :=
  {| mainWindow := Ref 1%nat;
     windows := {[ 0%nat := main_window;
                   1%nat := set_visible true main_window ]};
     allocated := 2%nat;
     autoDownload := true; autoInstallOnAppQuit := true;
     defaultPrevented := false; trace := [] |}.

(** * Properties *)

(** Name the fields of a state. *)
Ltac fields s :=
  destruct s as [mw ws al ad ai dp tr];
  cbn [mainWindow windows allocated autoDownload autoInstallOnAppQuit
       defaultPrevented trace] in *.

(** Run a statement on a state given by its fields. *)
Ltac run :=
  cbv [bind ret call modify return_ throw lift body async
       log set_mainWindow set_windows set_allocated set_autoDownload
       set_autoInstallOnAppQuit set_defaultPrevented
       mainWindow windows allocated autoDownload autoInstallOnAppQuit
       defaultPrevented trace fst snd].

(** ** The minimum-version table *)

Lemma includes_SUPPORTED_PLATFORMS p :
  includes SUPPORTED_PLATFORMS p = true →
  p = "darwin" ∨ p = "linux" ∨ p = "win32".
Proof.
  unfold includes, SUPPORTED_PLATFORMS. simpl.
  rewrite !orb_true_iff, !String.eqb_eq. intuition discriminate.
Qed.

(** C10: every platform that passes the operating-system allow-list has an
    entry in MINIMUM_SUPPORTED_VERSIONS, so [minimumVersion] is never
    undefined past that guard. *)
Theorem minimum_version_defined (p : string) :
  includes SUPPORTED_PLATFORMS p = true →
  is_Some (MINIMUM_SUPPORTED_VERSIONS !! p).
Proof.
  intros Hp.
  destruct (includes_SUPPORTED_PLATFORMS p Hp) as [-> | [-> | ->]];
    vm_compute; eauto.
Qed.

Lemma minimum_version_defined_witness :
  includes SUPPORTED_PLATFORMS "linux" = true ∧
  is_Some (MINIMUM_SUPPORTED_VERSIONS !! "linux").
Proof.
  split; [reflexivity | apply (minimum_version_defined "linux"); reflexivity].
Defined.

(** ** The startup guards *)

(** On an architecture outside the allow-list the startup listener logs
    the exception and then throws at the read of [osDialog] (line 63). *)
Lemma unsupported_architecture_throws (E : env) (s : state) :
  includes SUPPORTED_ARCHITECTURES (process_arch E) = false →
  ready E s =
    (Throw (ReferenceError "osDialog"),
     log (LogException
            ("Etcher does not support the current architecture: "
               +:+ process_arch E)) s).
Proof.
  intros Harch. fields s.
  unfold ready, architecture_guard, osDialog_showErrorBox.
  rewrite Harch. simpl negb. run. reflexivity.
Qed.

(** C2, on an ia32 host: the architecture is outside the allow-list; the
    startup listener logs the exception and then throws ReferenceError at
    [osDialog], which the module neither imports nor declares.  The
    listener ends there: [app.exit] is not called, and no window is
    built. *)
Theorem ia32_startup_never_exits :
  includes SUPPORTED_ARCHITECTURES (process_arch linux_ia32) = false ∧
  fst (ready linux_ia32 initial_state) = Throw (ReferenceError "osDialog") ∧
  trace (snd (ready linux_ia32 initial_state))
    = [ LogException
          "Etcher does not support the current architecture: ia32" ] ∧
  (∀ code, AppExit code ∉ trace (snd (ready linux_ia32 initial_state))) ∧
  windows (snd (ready linux_ia32 initial_state)) = ∅.
Proof.
  split; [reflexivity |].
  rewrite (unsupported_architecture_throws linux_ia32 initial_state)
    by reflexivity.
  split; [reflexivity |]. split; [reflexivity |].
  split; [| reflexivity].
  intros code Hin. cbn [snd trace log initial_state app] in Hin.
  apply list_elem_of_singleton in Hin. discriminate.
Qed.

(** On every platform of the allow-list the version guard hands the
    platform identifier to [semver.lt], which rejects it. *)
Lemma version_guard_throws (E : env) (s : state) :
  includes SUPPORTED_PLATFORMS (process_platform E) = true →
  version_guard E s = (Throw (InvalidVersion (Some (process_platform E))), s).
Proof.
  intros Hp. unfold version_guard, platform.
  destruct (includes_SUPPORTED_PLATFORMS _ Hp) as [-> | [-> | ->]];
    reflexivity.
Qed.

(** So the startup listener never gets past line 84 on a supported host. *)
Lemma ready_throws_on_supported_host (E : env) (s : state) :
  includes SUPPORTED_ARCHITECTURES (process_arch E) = true →
  includes SUPPORTED_PLATFORMS (process_platform E) = true →
  ready E s = (Throw (InvalidVersion (Some (process_platform E))), s).
Proof.
  intros Harch Hp.
  unfold ready, architecture_guard, platform_guard.
  rewrite Harch, Hp. simpl negb. run.
  rewrite (version_guard_throws E s Hp). reflexivity.
Qed.

(** C3, at Linux 3.9.0 on x64: the platform is on the allow-list and its
    version is below the 3.10.0 of the table, yet the startup listener
    throws at the comparison of line 84; it has logged nothing, shown no
    dialog and not called [app.exit]. *)
Theorem linux_3_9_0_is_not_rejected :
  includes SUPPORTED_ARCHITECTURES (process_arch linux_3_9_0) = true ∧
  includes SUPPORTED_PLATFORMS (process_platform linux_3_9_0) = true ∧
  semver.lt (os_release linux_3_9_0)
    (MINIMUM_SUPPORTED_VERSIONS !! process_platform linux_3_9_0) = Next true ∧
  ready linux_3_9_0 initial_state
    = (Throw (InvalidVersion (Some "linux")), initial_state) ∧
  trace (snd (ready linux_3_9_0 initial_state)) = [].
Proof.
  repeat split; reflexivity.
Qed.

(** ** The preference gates *)

(** Whatever the setting and the build, lines 92-96 read the setting and
    do nothing else. *)
Lemma errorReporting_gate_reads_only (E : env) (s : state) :
  errorReporting_gate E s = (Next tt, log (SettingsGet "errorReporting") s).
Proof.
  unfold errorReporting_gate, settings_get. run.
  destruct (negb (truthy (settings E !! "errorReporting"))
            && negb (isDevelopment E)); reflexivity.
Qed.

(** C4, with errorReporting stored as false outside a development build:
    between the read of the setting and the construction of the window the
    listener only reads the other setting.  No collaborator is told to stop
    collecting. *)
Theorem errorReporting_off_disables_nothing :
  settings linux_3_9_0 !! "errorReporting" = Some false ∧
  isDevelopment linux_3_9_0 = false ∧
  errorReporting_gate linux_3_9_0 initial_state
    = (Next tt, log (SettingsGet "errorReporting") initial_state) ∧
  trace (snd (configure_and_open linux_3_9_0 initial_state))
    = [ SettingsGet "errorReporting"; SettingsGet "updatesEnabled";
        NewBrowserWindow 0 main_window_options;
        BuildWindowMenu (Ref 0);
        LoadURL 0 "file:///opt/etcher/app/index.html";
        WindowOn 0 "closed" OnClosed;
        WindowOn 0 "ready-to-show" OnReadyToShow;
        WindowOn 0 "show" OnShow;
        WindowOn 0 "hide" OnHide;
        WindowOn 0 "minimize" OnMinimize ].
Proof.
  repeat split; reflexivity.
Qed.

(** ** Relations kept by every listener *)

Section Respects.

Variable R : state → state → Prop.
Hypothesis R_refl : ∀ s, R s s.
Hypothesis R_trans : ∀ s1 s2 s3, R s1 s2 → R s2 s3 → R s1 s3.
Hypothesis R_log : ∀ e s, R s (log e s).
Hypothesis R_mainWindow : ∀ h s, R s (set_mainWindow h s).
Hypothesis R_defaultPrevented : ∀ b s, R s (set_defaultPrevented b s).
Hypothesis R_hide :
  ∀ id s, R s (set_windows (alter (set_visible false) id (windows s)) s).
Hypothesis R_autoDownload : ∀ s, R s (set_autoDownload false s).
Hypothesis R_autoInstallOnAppQuit :
  ∀ s, R s (set_autoInstallOnAppQuit false s).
Hypothesis R_create : ∀ E, respects R (create_main_window E).

Lemma respects_ret {A} (a : A) : respects R (ret a).
Proof. intros s. apply R_refl. Qed.

Lemma respects_bind {A B} (c : M A) (k : A → M B) :
  respects R c → (∀ a, respects R (k a)) → respects R (bind c k).
Proof.
  intros Hc Hk s. unfold bind. specialize (Hc s).
  destruct (c s) as [[a | | e] s1]; simpl in *; auto.
  eapply R_trans; [exact Hc | apply Hk].
Qed.

Lemma respects_body (c : M unit) : respects R c → respects R (body c).
Proof.
  intros Hc s. unfold body. specialize (Hc s).
  destruct (c s) as [[a | | e] s1]; simpl in *; auto.
Qed.

Lemma respects_async (c : M unit) : respects R c → respects R (async c).
Proof. intros Hc s. apply Hc. Qed.

Lemma respects_call (e : effect) : respects R (call e).
Proof. intros s. apply R_log. Qed.

Lemma respects_return {A} : respects R (@return_ A).
Proof. intros s. apply R_refl. Qed.

Lemma respects_lift {A} (o : outcome A) : respects R (lift o).
Proof. intros s. apply R_refl. Qed.

Lemma respects_osDialog_showErrorBox (message : string) :
  respects R (osDialog_showErrorBox message).
Proof. intros s. apply R_refl. Qed.

Lemma respects_mainWindow_hide : respects R mainWindow_hide.
Proof.
  intros s. unfold mainWindow_hide.
  destruct (mainWindow s); simpl; auto.
  eapply R_trans; [apply R_hide | apply R_log].
Qed.

Create HintDb respects.
Hint Resolve respects_ret respects_call respects_return respects_lift
  respects_osDialog_showErrorBox
  respects_mainWindow_hide : respects.

Ltac respects_steps :=
  repeat lazymatch goal with
    | |- respects _ (body _) => apply respects_body
    | |- respects _ (async _) => apply respects_async
    | |- respects _ (bind _ _) => apply respects_bind; [| intros ?]
    | |- respects _ _ => progress auto with respects
    end.

Lemma respects_failure (E : env) (message : string) :
  respects R (call (LogException message) ;;;
              osDialog_showErrorBox message ;;;
              call (AppExit (GENERAL_ERROR E)) ;;;
              @return_ unit).
Proof. respects_steps. Qed.

Lemma respects_architecture_guard E : respects R (architecture_guard E).
Proof.
  unfold architecture_guard.
  destruct (negb _); [apply respects_failure | apply respects_ret].
Qed.

Lemma respects_platform_guard E : respects R (platform_guard E).
Proof.
  unfold platform_guard.
  destruct (negb _); [apply respects_failure | apply respects_ret].
Qed.

Lemma respects_version_guard E : respects R (version_guard E).
Proof.
  unfold version_guard. apply respects_bind; [apply respects_lift |].
  intros [|]; [apply respects_failure | apply respects_ret].
Qed.

Lemma respects_settings_get E key : respects R (settings_get E key).
Proof. unfold settings_get. respects_steps. Qed.

Lemma respects_errorReporting_gate E : respects R (errorReporting_gate E).
Proof.
  unfold errorReporting_gate.
  apply respects_bind; [apply respects_settings_get | intros v].
  destruct (_ && _); apply respects_ret.
Qed.

Lemma respects_updatesEnabled_gate E : respects R (updatesEnabled_gate E).
Proof.
  unfold updatesEnabled_gate.
  apply respects_bind; [apply respects_settings_get | intros v].
  destruct (negb _); [| apply respects_ret].
  apply respects_bind; [| intros _]; intros s; simpl; auto.
Qed.

Lemma respects_ready E : respects R (ready E).
Proof.
  unfold ready, configure_and_open.
  pose proof (respects_architecture_guard E).
  pose proof (respects_platform_guard E).
  pose proof (respects_version_guard E).
  pose proof (respects_errorReporting_gate E).
  pose proof (respects_updatesEnabled_gate E).
  pose proof (R_create E).
  respects_steps.
Qed.

Lemma respects_window_all_closed E : respects R (window_all_closed E).
Proof. unfold window_all_closed. destruct (negb _); respects_steps. Qed.

Lemma respects_activate E : respects R (activate E).
Proof.
  intros s. unfold activate.
  destruct (mainWindow s); simpl; auto. apply respects_ready.
Qed.

Lemma respects_quit_guard : respects R quit_guard.
Proof.
  unfold quit_guard, preventDefault. respects_steps.
  intros s. apply R_defaultPrevented.
Qed.

Lemma respects_app_listener E l : respects R (run_app_listener E l).
Proof.
  destruct l; simpl.
  - apply respects_async, respects_ready.
  - apply respects_window_all_closed.
  - apply respects_activate.
  - apply respects_quit_guard.
Qed.

Lemma respects_run_all (cs : list (M unit)) :
  Forall (respects R) cs → respects R (run_all cs).
Proof.
  induction 1 as [| c cs Hc _ IH]; simpl.
  - apply respects_ret.
  - apply respects_bind; [by apply respects_body | intros _; exact IH].
Qed.

Lemma respects_emit_app E event : respects R (emit_app E event).
Proof.
  unfold emit_app.
  apply respects_bind; [intros s; apply R_defaultPrevented | intros _].
  apply respects_run_all, Forall_forall. intros c Hc.
  apply list_elem_of_In, in_map_iff in Hc as (l & <- & _).
  apply respects_app_listener.
Qed.

(** Of the five window listeners only the one for 'ready-to-show' calls
    [show]. *)
Lemma respects_window_listener l :
  l ≠ OnReadyToShow → respects R (run_window_listener l).
Proof.
  intros Hl. destruct l; simpl; try congruence.
  - intros s. apply R_mainWindow.
  - apply respects_call.
  - apply respects_call.
  - apply respects_mainWindow_hide.
Qed.

Lemma respects_emit_window_other id event :
  event ≠ "ready-to-show" →
  ∀ s, installed s → R s (snd (emit_window id event s)).
Proof.
  intros Hev s Hs. unfold emit_window.
  destruct (windows s !! id) as [w |] eqn:Hw; [| apply R_refl].
  rewrite (Hs id w Hw).
  apply respects_run_all, Forall_forall. intros c Hc.
  apply list_elem_of_In, in_map_iff in Hc as (l & <- & Hl).
  apply respects_window_listener. intros ->.
  unfold registered in Hl.
  apply in_map_iff in Hl as ([ev l] & Heq & Hin).
  simpl in Heq. subst l.
  apply list_elem_of_In, list_elem_of_filter in Hin as [Hfst Hin].
  simpl in Hfst. subst ev.
  unfold main_window_listeners in Hin.
  repeat (apply elem_of_cons in Hin as [Hin | Hin]; [congruence |]).
  by apply elem_of_nil in Hin.
Qed.

Section WithShow.

Hypothesis R_show :
  ∀ id s, R s (set_windows (alter (set_visible true) id (windows s)) s).

Lemma respects_emit_window id event : respects R (emit_window id event).
Proof.
  intros s. unfold emit_window.
  destruct (windows s !! id) as [w |]; [| apply R_refl].
  apply respects_run_all, Forall_forall. intros c Hc.
  apply list_elem_of_In, in_map_iff in Hc as (l & <- & _).
  destruct (decide (l = OnReadyToShow)) as [-> | Hl];
    [| by apply respects_window_listener].
  intros s'. simpl. unfold mainWindow_show.
  destruct (mainWindow s'); simpl; auto.
  eapply R_trans; [apply R_show | apply R_log].
Qed.

Lemma respects_dispatch E ev : respects R (dispatch E ev).
Proof.
  destruct ev; simpl;
    [apply respects_emit_app | apply respects_emit_window].
Qed.

Lemma respects_deliver E evs s : R s (deliver E evs s).
Proof.
  revert s. induction evs as [| ev evs IH]; intros s; simpl.
  - apply R_refl.
  - eapply R_trans; [apply respects_dispatch | apply IH].
Qed.

End WithShow.

End Respects.

(** ** Building the main window *)

Lemma create_main_window_result (E : env) (s : state) :
  create_main_window E s =
    (Next tt,
     {| mainWindow := Ref (allocated s);
        windows := <[allocated s := main_window]> (windows s);
        allocated := S (allocated s);
        autoDownload := autoDownload s;
        autoInstallOnAppQuit := autoInstallOnAppQuit s;
        defaultPrevented := defaultPrevented s;
        trace := trace s ++ creation_trace E (allocated s) |}).
Proof.
  destruct s as [mw ws al ad ai dp tr].
  unfold create_main_window, new_BrowserWindow, buildWindowMenu,
    mainWindow_call, mainWindow_on, creation_trace.
  destruct (isDevelopment E); run;
    rewrite !alter_insert_eq, <- !app_assoc; reflexivity.
Qed.

Lemma installed_initial_state : installed initial_state.
Proof. apply map_Forall_empty. Qed.

Lemma installed_alter_visible (b : bool) (id : nat) (s : state) :
  installed s →
  installed (set_windows (alter (set_visible b) id (windows s)) s).
Proof.
  intros Hs id' w'. simpl. rewrite lookup_alter.
  case_decide as Hid; [| apply Hs].
  subst id'. destruct (windows s !! id) as [w |] eqn:Hw; simpl; [| done].
  intros [= <-]. simpl. exact (Hs id w Hw).
Qed.

Lemma installed_create (E : env) (s : state) :
  installed s → installed (snd (create_main_window E s)).
Proof.
  intros Hs. rewrite create_main_window_result. simpl.
  intros id w. simpl. rewrite lookup_insert.
  case_decide; [by intros [= <-] | apply Hs].
Qed.

Lemma hidden_alter_invisible (id id' : nat) (s : state) :
  hidden id s →
  hidden id (set_windows (alter (set_visible false) id' (windows s)) s).
Proof.
  intros (w & Hw & Hv). unfold hidden. simpl. rewrite lookup_alter.
  case_decide as Hid.
  - subst id'. rewrite Hw. simpl. eauto.
  - eauto.
Qed.

Lemma keeps_hidden_trans (id : nat) (s1 s2 s3 : state) :
  keeps_hidden id s1 s2 → keeps_hidden id s2 s3 → keeps_hidden id s1 s3.
Proof.
  intros [Hle12 H12] [Hle23 H23]. split; [lia |].
  intros Hid Hh. apply H23; [lia | by apply H12].
Qed.

Lemma keeps_hidden_create (id : nat) (E : env) :
  respects (keeps_hidden id) (create_main_window E).
Proof.
  intros s. rewrite create_main_window_result. split; simpl; [lia |].
  intros Hid (w & Hw & Hv). exists w. simpl.
  rewrite lookup_insert_ne by lia. done.
Qed.

Lemma dispatch_keeps_updates_off (E : env) (evs : list host_event) (s : state) :
  updates_off s → updates_off (deliver E evs s).
Proof.
  apply (respects_deliver keeps_updates_off); unfold keeps_updates_off;
    try (intros; assumption).
  - intros s1 s2 s3 H12 H23 H. auto.
  - intros s0 [_ Hinst]. by split.
  - intros s0 [Hdown _]. by split.
  - intros E0 s0. rewrite create_main_window_result. done.
Qed.

Lemma deliver_keeps_installed (E : env) (evs : list host_event) (s : state) :
  installed s → installed (deliver E evs s).
Proof.
  apply (respects_deliver keeps_installed); unfold keeps_installed;
    try (intros; assumption).
  - intros s1 s2 s3 H12 H23 H. auto.
  - intros id s0. apply installed_alter_visible.
  - intros E0 s0. apply installed_create.
  - intros id s0. apply installed_alter_visible.
Qed.

Lemma dispatch_keeps_installed (E : env) (ev : host_event) (s : state) :
  installed s → installed (snd (dispatch E ev s)).
Proof. apply (deliver_keeps_installed E [ev]). Qed.

(** An event other than 'ready-to-show' leaves a hidden window hidden. *)
Lemma dispatch_keeps_hidden (E : env) (id : nat) (ev : host_event) (s : state) :
  (∀ id0, ev ≠ WindowEvent id0 "ready-to-show") →
  installed s →
  keeps_hidden id s (snd (dispatch E ev s)).
Proof.
  intros Hev Hs.
  assert (Hrefl : ∀ s0, keeps_hidden id s0 s0) by (intros s0; split; auto).
  assert (Hsame : ∀ s0 s1 : state,
             windows s1 = windows s0 → allocated s1 = allocated s0 →
             keeps_hidden id s0 s1).
  { intros s0 s1 Hw Ha. split; [lia |]. unfold hidden. by rewrite Hw. }
  assert (Hhide : ∀ id' s0,
             keeps_hidden id s0
               (set_windows (alter (set_visible false) id' (windows s0)) s0)).
  { intros id' s0. split; [simpl; lia |].
    intros _. apply hidden_alter_invisible. }
  assert (Hcreate : ∀ E0, respects (keeps_hidden id) (create_main_window E0))
    by (intros E0; apply keeps_hidden_create).
  destruct ev as [event | id0 event]; simpl.
  - apply (respects_emit_app (keeps_hidden id));
      first [ assumption | apply keeps_hidden_trans
            | intros; by apply Hsame ].
  - apply (respects_emit_window_other (keeps_hidden id));
      first [ assumption | apply keeps_hidden_trans
            | intros; by apply Hsame
            | intros ->; by apply (Hev id0) ].
Qed.

Lemma deliver_keeps_hidden (E : env) (id : nat) (evs : list host_event) :
  (∀ id0, WindowEvent id0 "ready-to-show" ∉ evs) →
  ∀ s, installed s → (id < allocated s)%nat → hidden id s →
       hidden id (deliver E evs s).
Proof.
  induction evs as [| ev evs IH]; intros Hevs s Hs Hid Hh; simpl; [done |].
  destruct (dispatch_keeps_hidden E id ev s) as [Hle Hkeep]; [| done |].
  { intros id0 ->. apply (Hevs id0). left. }
  apply IH.
  - intros id0 Hin. apply (Hevs id0). by right.
  - by apply dispatch_keeps_installed.
  - lia.
  - by apply Hkeep.
Qed.

(** X16: lines 105-176, entered from any state whose windows carry the
    module's listeners.  The window is built from the fixed options (1280
    by 720, the same minimum size, [show: false]) and starts off screen;
    the menu builder receives it and the local document is loaded into it;
    these lines never call [show].  The window then stays off screen under
    any run of events without a 'ready-to-show', and a 'ready-to-show' puts
    it on screen. *)
Theorem main_window_hidden_until_ready_to_show (E : env) (s : state) :
  installed s →
  let id := allocated s in
  ∃ s1,
    create_main_window E s = (Next tt, s1) ∧
    mainWindow s1 = Ref id ∧
    windows s1 !! id = Some main_window ∧
    (width (options main_window) = 1280 ∧ height (options main_window) = 720 ∧
     minWidth (options main_window) = 1280 ∧
     minHeight (options main_window) = 720 ∧
     show (options main_window) = false ∧ visible main_window = false) ∧
    trace s1 = trace s ++ creation_trace E id ∧
    (NewBrowserWindow id (options main_window) ∈ creation_trace E id ∧
     BuildWindowMenu (Ref id) ∈ creation_trace E id ∧
     LoadURL id ("file://" +:+ __dirname E +:+ "/app/index.html")
       ∈ creation_trace E id ∧
     ∀ id', WindowShow id' ∉ creation_trace E id) ∧
    (∀ evs, (∀ id0, WindowEvent id0 "ready-to-show" ∉ evs) →
            hidden id (deliver E evs s1)) ∧
    (∃ w, windows (snd (dispatch E (WindowEvent id "ready-to-show") s1)) !! id
            = Some w ∧ visible w = true).
Proof.
  intros Hs id. eexists. split; [apply create_main_window_result |].
  split; [reflexivity |]. simpl.
  split; [apply lookup_insert_eq |].
  split; [repeat split; reflexivity |].
  split; [reflexivity |].
  split.
  { unfold creation_trace. repeat split.
    - left.
    - right. left.
    - right. right. left.
    - intros id' Hin. destruct (isDevelopment E); simpl in Hin;
        repeat (apply elem_of_cons in Hin as [Hin | Hin]; [discriminate |]);
        by apply elem_of_nil in Hin. }
  split.
  - intros evs Hevs.
    pose proof (installed_create E s Hs) as Hs1.
    rewrite create_main_window_result in Hs1.
    apply deliver_keeps_hidden; try assumption.
    + simpl. lia.
    + exists main_window. simpl. by rewrite lookup_insert_eq.
  - unfold emit_window. simpl. rewrite lookup_insert_eq. simpl.
    exists (set_visible true main_window).
    rewrite lookup_alter_eq, lookup_insert_eq. done.
Qed.

Lemma main_window_hidden_until_ready_to_show_witness :
  installed initial_state ∧
  ∃ s1,
    create_main_window linux_3_9_0 initial_state = (Next tt, s1) ∧
    mainWindow s1 = Ref 0%nat ∧
    hidden 0%nat
      (deliver linux_3_9_0
         [WindowEvent 0%nat "show"; WindowEvent 0%nat "minimize";
          AppEvent "before-quit"] s1).
Proof.
  split; [apply map_Forall_empty |].
  destruct (main_window_hidden_until_ready_to_show linux_3_9_0 initial_state)
    as (s1 & Hrun & Hmain & _ & _ & _ & _ & Hhidden & _);
    [apply map_Forall_empty |].
  exists s1. repeat split; try assumption.
  apply Hhidden. intros id0 Hin.
  repeat (apply elem_of_cons in Hin as [Hin | Hin]; [discriminate |]).
  by apply elem_of_nil in Hin.
Defined.

(** ** Updates *)

Lemma updatesEnabled_gate_off (E : env) (s : state) :
  truthy (settings E !! "updatesEnabled") = false →
  updatesEnabled_gate E s =
    (Next tt,
     set_autoInstallOnAppQuit false
       (set_autoDownload false (log (SettingsGet "updatesEnabled") s))).
Proof.
  intros Hoff. unfold updatesEnabled_gate, settings_get. run.
  rewrite Hoff. reflexivity.
Qed.

(** X15: lines 92-176, entered from any state with the updatesEnabled
    preference stored as false, leave [autoDownload] and
    [autoInstallOnAppQuit] both false and call no update check on the way;
    whatever events are served afterwards, both flags are still false, so
    any update check that a 'show' event triggers finds them switched
    off. *)
Theorem updates_switched_off_before_any_check (E : env) (s : state) :
  settings E !! "updatesEnabled" = Some false →
  ∃ s1 t,
    configure_and_open E s = (Next tt, s1) ∧
    trace s1 = trace s ++ t ∧
    (CheckForUpdates ∉ t) ∧
    autoDownload s1 = false ∧
    autoInstallOnAppQuit s1 = false ∧
    ∀ evs, autoDownload (deliver E evs s1) = false ∧
           autoInstallOnAppQuit (deliver E evs s1) = false.
Proof.
  intros Hoff.
  assert (Hfalsy : truthy (settings E !! "updatesEnabled") = false)
    by (rewrite Hoff; reflexivity).
  unfold configure_and_open. unfold bind at 1.
  rewrite errorReporting_gate_reads_only. unfold bind at 1.
  rewrite (updatesEnabled_gate_off E _ Hfalsy).
  rewrite create_main_window_result. simpl.
  eexists. exists ([SettingsGet "errorReporting"; SettingsGet "updatesEnabled"]
                     ++ creation_trace E (allocated s)).
  split; [reflexivity |]. simpl.
  split; [by rewrite <- !app_assoc |].
  split.
  { unfold creation_trace. intros Hin.
    destruct (isDevelopment E); simpl in Hin;
      repeat (apply elem_of_cons in Hin as [Hin | Hin]; [discriminate |]);
      by apply elem_of_nil in Hin. }
  split; [reflexivity |]. split; [reflexivity |].
  intros evs. by apply dispatch_keeps_updates_off.
Qed.

Lemma updates_switched_off_before_any_check_witness :
  settings linux_3_9_0 !! "updatesEnabled" = Some false ∧
  ∃ s1,
    configure_and_open linux_3_9_0 initial_state = (Next tt, s1) ∧
    autoDownload s1 = false ∧
    autoInstallOnAppQuit s1 = false ∧
    autoDownload
      (deliver linux_3_9_0
         [WindowEvent 0%nat "ready-to-show"; WindowEvent 0%nat "show"] s1)
      = false.
Proof.
  split; [reflexivity |].
  destruct (updates_switched_off_before_any_check linux_3_9_0 initial_state)
    as (s1 & t & Hrun & _ & _ & Hdown & Hinst & Hlater); [reflexivity |].
  exists s1. repeat split; try assumption.
  apply Hlater.
Defined.

(** C6: a 'show' event on a window that carries the listeners of lines
    147-176 calls [autoUpdater.checkForUpdates] once and does nothing
    else. *)
Theorem show_event_checks_for_updates_once
  (E : env) (s : state) (id : nat) (w : window) :
  windows s !! id = Some w →
  listeners w = main_window_listeners →
  ∃ s',
    dispatch E (WindowEvent id "show") s = (Next tt, s') ∧
    trace s' = trace s ++ [CheckForUpdates] ∧
    s' = log CheckForUpdates s.
Proof.
  intros Hw Hl. simpl. unfold emit_window. rewrite Hw, Hl.
  eexists. split; [reflexivity |]. split; reflexivity.
Qed.

Lemma show_event_checks_for_updates_once_witness :
  let s := snd (configure_and_open linux_3_9_0 initial_state) in
  windows s !! 0%nat = Some main_window ∧
  listeners main_window = main_window_listeners ∧
  ∃ s',
    dispatch linux_3_9_0 (WindowEvent 0%nat "show") s = (Next tt, s') ∧
    trace s' = trace s ++ [CheckForUpdates].
Proof.
  intros s.
  assert (Hw : windows s !! 0%nat = Some main_window) by reflexivity.
  split; [exact Hw |]. split; [reflexivity |].
  destruct (show_event_checks_for_updates_once linux_3_9_0 s 0 main_window Hw)
    as (s' & Hrun & Htrace & _); [reflexivity |].
  exists s'. split; assumption.
Defined.

(** ** Application listeners *)

(** C7: on 'window-all-closed' the module calls [app.quit] exactly when
    the platform is not darwin; it calls nothing on darwin. *)
Theorem window_all_closed_quits_unless_darwin (E : env) (s : state) :
  ∃ s' t,
    dispatch E (AppEvent "window-all-closed") s = (Next tt, s') ∧
    trace s' = trace s ++ t ∧
    (AppQuit ∈ t ↔ process_platform E ≠ "darwin") ∧
    (process_platform E = "darwin" ↔ t = []) ∧
    (process_platform E ≠ "darwin" ↔ t = [AppQuit]).
Proof.
  destruct s as [mw ws al ad ai dp tr].
  cbn [dispatch]. unfold emit_app.
  change (registered "window-all-closed" app_listeners) with [WindowAllClosed].
  cbn [map run_all run_app_listener]. unfold window_all_closed.
  destruct (String.eqb_spec (process_platform E) "darwin") as [Heq | Hne];
    simpl negb; run; eexists; eexists; (split; [reflexivity |]); run.
  - split; [symmetry; apply app_nil_r |].
    split; [| split; [done |]].
    + split; [by intros ?%elem_of_nil | done].
    + split; [done | discriminate].
  - split; [reflexivity |].
    split; [| split; [| done]].
    + split; [done | left].
    + split; [done | discriminate].
Qed.

Lemma quit_event_listeners (event : string) (l : app_listener) :
  (event, l) ∈ app_listeners → event ∈ QUIT_EVENTS → l = QuitGuard.
Proof.
  unfold app_listeners, QUIT_EVENTS. intros Hreg Hev.
  repeat (apply elem_of_cons in Hreg as [[= -> ->] | Hreg];
          [first [reflexivity
                 | exfalso;
                   repeat (apply elem_of_cons in Hev as [Hev | Hev];
                           [discriminate |]);
                   by apply elem_of_nil in Hev] |]).
  by apply elem_of_nil in Hreg.
Qed.

Lemma registered_quit_event (event : string) :
  event ∈ QUIT_EVENTS →
  registered event app_listeners = [QuitGuard; QuitGuard; QuitGuard].
Proof.
  unfold QUIT_EVENTS. intros Hev.
  repeat (apply elem_of_cons in Hev as [-> | Hev]; [reflexivity |]).
  by apply elem_of_nil in Hev.
Qed.

(** The cancellation comes first and needs no window. *)
Lemma quit_guard_prevents_default (s : state) :
  defaultPrevented (snd (quit_guard s)) = true.
Proof.
  fields s. unfold quit_guard, preventDefault, mainWindow_hide. run.
  destruct mw; reflexivity.
Qed.

(** With a window behind the handle the listener cancels, then hides. *)
Lemma quit_guard_hides_window (s : state) (id : nat) :
  mainWindow s = Ref id →
  ∃ s', quit_guard s = (Next tt, s') ∧
        trace s' = trace s ++ [PreventDefault; WindowHide id] ∧
        defaultPrevented s' = true.
Proof.
  intros Hmain. fields s. subst mw.
  unfold quit_guard, preventDefault, mainWindow_hide. run.
  eexists. split; [reflexivity |]. run.
  by rewrite <- app_assoc.
Qed.

(** Whatever the handle holds, the dispatch of a quit event ends with the
    event cancelled. *)
Lemma quit_event_always_cancelled (E : env) (event : string) (s : state) :
  event ∈ QUIT_EVENTS →
  defaultPrevented (snd (dispatch E (AppEvent event) s)) = true.
Proof.
  intros Hev. fields s. cbn [dispatch]. unfold emit_app.
  rewrite (registered_quit_event event Hev).
  cbn [map run_all run_app_listener].
  unfold quit_guard, preventDefault, mainWindow_hide. run.
  destruct mw; reflexivity.
Qed.

(** With a window behind the handle, each of the three listeners of a quit
    event cancels and hides in turn. *)
Lemma quit_event_hides_window (E : env) (event : string) (s : state) (id : nat) :
  event ∈ QUIT_EVENTS →
  mainWindow s = Ref id →
  ∃ s', dispatch E (AppEvent event) s = (Next tt, s') ∧
        trace s' = trace s ++ [ PreventDefault; WindowHide id;
                                PreventDefault; WindowHide id;
                                PreventDefault; WindowHide id ] ∧
        defaultPrevented s' = true.
Proof.
  intros Hev Hmain. fields s. subst mw. cbn [dispatch]. unfold emit_app.
  rewrite (registered_quit_event event Hev).
  cbn [map run_all run_app_listener].
  unfold quit_guard, preventDefault, mainWindow_hide. run.
  eexists. split; [reflexivity |]. run.
  by rewrite <- !app_assoc.
Qed.

(** C9: a listener registered for 'before-quit', 'will-quit' or 'quit'
    reads [mainWindow.hide] with no test of the handle.  When the handle
    holds null or undefined it throws at that read, having only cancelled
    the event: no window is hidden, and the exception ends the dispatch.
    The handle is undefined when the module is loaded and null once the
    'closed' listener has run. *)
Theorem quit_listeners_throw_without_window
  (E : env) (event : string) (l : app_listener) (s : state) :
  (event, l) ∈ app_listeners →
  event ∈ QUIT_EVENTS →
  mainWindow s = Null ∨ mainWindow s = Undefined →
  (∃ s', run_app_listener E l s = (Throw (NullDereference "hide"), s') ∧
         trace s' = trace s ++ [PreventDefault] ∧
         windows s' = windows s) ∧
  (∃ s', dispatch E (AppEvent event) s = (Throw (NullDereference "hide"), s') ∧
         trace s' = trace s ++ [PreventDefault] ∧
         windows s' = windows s) ∧
  mainWindow initial_state = Undefined ∧
  (∀ s0, mainWindow (snd (run_window_listener OnClosed s0)) = Null).
Proof.
  intros Hreg Hev Habsent.
  rewrite (quit_event_listeners event l Hreg Hev).
  fields s.
  split; [| split; [| split; [reflexivity | reflexivity]]].
  - cbn [run_app_listener].
    unfold quit_guard, preventDefault, mainWindow_hide. run.
    destruct Habsent as [-> | ->]; eexists; (split; [reflexivity |]); done.
  - cbn [dispatch]. unfold emit_app.
    rewrite (registered_quit_event event Hev).
    cbn [map run_all run_app_listener].
    unfold quit_guard, preventDefault, mainWindow_hide. run.
    destruct Habsent as [-> | ->]; eexists; (split; [reflexivity |]); done.
Qed.

Lemma quit_listeners_throw_without_window_witness :
  ("will-quit", QuitGuard) ∈ app_listeners ∧
  "will-quit" ∈ QUIT_EVENTS ∧
  mainWindow after_close = Null ∧
  ∃ s', dispatch linux_3_9_0 (AppEvent "will-quit") after_close
          = (Throw (NullDereference "hide"), s') ∧
        trace s' = trace after_close ++ [PreventDefault].
Proof.
  assert (Hreg : ("will-quit", QuitGuard) ∈ app_listeners)
    by (unfold app_listeners; repeat constructor).
  assert (Hev : "will-quit" ∈ QUIT_EVENTS)
    by (unfold QUIT_EVENTS; repeat constructor).
  assert (Hnull : mainWindow after_close = Null) by reflexivity.
  repeat split; try assumption.
  destruct (quit_listeners_throw_without_window linux_3_9_0 "will-quit"
              QuitGuard after_close Hreg Hev (or_introl Hnull))
    as (_ & (s' & Hrun & Htrace & _) & _).
  exists s'. split; assumption.
Defined.

(** C1, once the window has been closed: the handle holds null, and a
    'before-quit' event is cancelled by the first of its listeners, which
    then throws instead of hiding a window; the two other listeners
    registered for the event are not called. *)
Theorem before_quit_after_close_hides_nothing :
  mainWindow after_close = Null ∧
  registered "before-quit" app_listeners = [QuitGuard; QuitGuard; QuitGuard] ∧
  fst (dispatch linux_3_9_0 (AppEvent "before-quit") after_close)
    = Throw (NullDereference "hide") ∧
  trace (snd (dispatch linux_3_9_0 (AppEvent "before-quit") after_close))
    = trace after_close ++ [PreventDefault] ∧
  windows (snd (dispatch linux_3_9_0 (AppEvent "before-quit") after_close))
    = windows after_close.
Proof.
  split; [vm_compute; reflexivity |].
  split; [vm_compute; reflexivity |].
  split; [vm_compute; reflexivity |].
  split; vm_compute; reflexivity.
Qed.

(** * Further properties *)

(** ** The startup listener as a whole *)

(** The three ways the startup listener ends; it throws in each. *)
Lemma ready_result (E : env) (s : state) :
  (includes SUPPORTED_ARCHITECTURES (process_arch E) = false ∧
   ready E s =
     (Throw (ReferenceError "osDialog"),
      log (LogException
             ("Etcher does not support the current architecture: "
                +:+ process_arch E)) s)) ∨
  (includes SUPPORTED_ARCHITECTURES (process_arch E) = true ∧
   includes SUPPORTED_PLATFORMS (process_platform E) = false ∧
   ready E s =
     (Throw (ReferenceError "osDialog"),
      log (LogException
             ("Etcher does not support the current operating system: "
                +:+ process_platform E)) s)) ∨
  (includes SUPPORTED_ARCHITECTURES (process_arch E) = true ∧
   includes SUPPORTED_PLATFORMS (process_platform E) = true ∧
   ready E s = (Throw (InvalidVersion (Some (process_platform E))), s)).
Proof.
  destruct (includes SUPPORTED_ARCHITECTURES (process_arch E)) eqn:Harch;
    [destruct (includes SUPPORTED_PLATFORMS (process_platform E)) eqn:Hp |].
  - right. right. split; [done |]. split; [done |].
    by apply ready_throws_on_supported_host.
  - right. left. split; [done |]. split; [done |].
    unfold ready, architecture_guard, platform_guard, osDialog_showErrorBox.
    rewrite Harch, Hp. fields s. simpl negb. run. reflexivity.
  - left. split; [done |]. by apply unsupported_architecture_throws.
Qed.

(** X1: on a supported architecture, an operating system outside the
    allow-list makes the startup listener log an exception whose message
    names the platform, and then throw ReferenceError at [osDialog] (line
    72), which the module neither imports nor declares.  Nothing else is
    called: no dialog, no [app.exit]; no window is built and the handle is
    left alone. *)
Theorem unsupported_platform_throws (E : env) (s : state) :
  includes SUPPORTED_ARCHITECTURES (process_arch E) = true →
  includes SUPPORTED_PLATFORMS (process_platform E) = false →
  let message :=
    "Etcher does not support the current operating system: "
      +:+ process_platform E in
  ∃ s',
    ready E s = (Throw (ReferenceError "osDialog"), s') ∧
    trace s' = trace s ++ [LogException message] ∧
    windows s' = windows s ∧
    allocated s' = allocated s ∧
    mainWindow s' = mainWindow s.
Proof.
  intros Harch Hp message.
  destruct (ready_result E s) as [[Hno _] | [(_ & _ & Hrun) | (_ & Hyes & _)]];
    [congruence | | congruence].
  eexists. split; [exact Hrun |].
  fields s. run.
  split; [reflexivity |]. split; [reflexivity |]. split; reflexivity.
Qed.

Lemma unsupported_platform_throws_witness :
  includes SUPPORTED_ARCHITECTURES (process_arch freebsd_x64) = true ∧
  includes SUPPORTED_PLATFORMS (process_platform freebsd_x64) = false ∧
  ∃ s',
    ready freebsd_x64 initial_state = (Throw (ReferenceError "osDialog"), s') ∧
    trace s' =
      [ LogException
          "Etcher does not support the current operating system: freebsd" ].
Proof.
  split; [reflexivity |]. split; [reflexivity |].
  destruct (unsupported_platform_throws freebsd_x64 initial_state)
    as (s' & Hrun & Htrace & _); [reflexivity | reflexivity |].
  exists s'. split; assumption.
Defined.

(** X2: on every host that passes both allow-lists the startup listener
    throws at the comparison of line 84, because the value compared is the
    platform identifier; the exception names that identifier and the state
    is exactly as before: nothing logged, no dialog, no exit, no setting
    read, no window. *)
Theorem supported_host_startup_throws (E : env) (s : state) :
  includes SUPPORTED_ARCHITECTURES (process_arch E) = true →
  includes SUPPORTED_PLATFORMS (process_platform E) = true →
  ready E s = (Throw (InvalidVersion (Some (process_platform E))), s) ∧
  semver.parse (platform E) = None ∧
  (∃ v, MINIMUM_SUPPORTED_VERSIONS !! process_platform E = Some v ∧
        is_Some (semver.parse v)).
Proof.
  intros Harch Hp.
  split; [by apply ready_throws_on_supported_host |].
  unfold platform.
  destruct (includes_SUPPORTED_PLATFORMS _ Hp) as [-> | [-> | ->]];
    (split; [reflexivity |]); eexists; (split; [reflexivity |]);
    vm_compute; eauto.
Qed.

Lemma supported_host_startup_throws_witness :
  includes SUPPORTED_ARCHITECTURES (process_arch win32_development) = true ∧
  includes SUPPORTED_PLATFORMS (process_platform win32_development) = true ∧
  ready win32_development initial_state
    = (Throw (InvalidVersion (Some "win32")), initial_state).
Proof.
  split; [reflexivity |]. split; [reflexivity |].
  apply (supported_host_startup_throws win32_development initial_state);
    reflexivity.
Defined.


(** ** What no event changes *)

Lemma ready_keeps_fields (E : env) (s : state) :
  mainWindow (snd (ready E s)) = mainWindow s ∧
  windows (snd (ready E s)) = windows s ∧
  allocated (snd (ready E s)) = allocated s ∧
  autoDownload (snd (ready E s)) = autoDownload s ∧
  autoInstallOnAppQuit (snd (ready E s)) = autoInstallOnAppQuit s.
Proof.
  destruct (ready_result E s)
    as [[_ Hrun] | [(_ & _ & Hrun) | (_ & _ & Hrun)]];
    rewrite Hrun; fields s; run;
    (split; [reflexivity |]); (split; [reflexivity |]);
    (split; [reflexivity |]); split; reflexivity.
Qed.

Lemma same_frame_refl (s : state) : same_frame s s.
Proof. repeat split. Qed.

Lemma same_frame_trans (s1 s2 s3 : state) :
  same_frame s1 s2 → same_frame s2 s3 → same_frame s1 s3.
Proof.
  intros (Ha & Hd & Hi & Hw) (Ha' & Hd' & Hi' & Hw').
  split; [congruence |]. split; [congruence |]. split; [congruence |].
  intros id. by rewrite Hw', Hw.
Qed.

Lemma same_frame_fields (s s' : state) :
  allocated s' = allocated s →
  autoDownload s' = autoDownload s →
  autoInstallOnAppQuit s' = autoInstallOnAppQuit s →
  windows s' = windows s →
  same_frame s s'.
Proof. intros Ha Hd Hi Hw. repeat split; try assumption. by rewrite Hw. Qed.

Lemma same_frame_visible (b : bool) (id : nat) (s : state) :
  same_frame s (set_windows (alter (set_visible b) id (windows s)) s).
Proof.
  repeat split. intros id0. cbn [windows set_windows].
  rewrite lookup_alter. case_decide as Hid; [| reflexivity].
  subst id0. by destruct (windows s !! id).
Qed.

Lemma same_frame_ready (E : env) : respects same_frame (ready E).
Proof.
  intros s. destruct (ready_keeps_fields E s) as (_ & Hw & Ha & Hd & Hi).
  by apply same_frame_fields.
Qed.

Ltac same_frame_side :=
  first [ exact same_frame_refl | exact same_frame_trans
        | intros; apply same_frame_visible
        | intros; apply same_frame_fields; reflexivity ].

Lemma same_frame_app_listener (E : env) (l : app_listener) :
  respects same_frame (run_app_listener E l).
Proof.
  destruct l; cbn [run_app_listener].
  - intros s. apply same_frame_ready.
  - apply (respects_window_all_closed same_frame); same_frame_side.
  - intros s. unfold activate.
    destruct (mainWindow s);
      [apply same_frame_refl | apply same_frame_ready | apply same_frame_refl].
  - apply (respects_quit_guard same_frame); same_frame_side.
Qed.

Lemma same_frame_dispatch (E : env) (ev : host_event) :
  respects same_frame (dispatch E ev).
Proof.
  destruct ev as [event | id event]; cbn [dispatch].
  - unfold emit_app.
    apply (respects_bind same_frame); try same_frame_side.
    intros _. apply (respects_run_all same_frame); try same_frame_side.
    apply Forall_forall. intros c Hc.
    apply list_elem_of_In, in_map_iff in Hc as (l & <- & _).
    apply same_frame_app_listener.
  - apply (respects_emit_window same_frame); same_frame_side.
Qed.

Lemma same_frame_deliver (E : env) (evs : list host_event) (s : state) :
  same_frame s (deliver E evs s).
Proof.
  revert s. induction evs as [| ev evs IH]; intros s; cbn [deliver fold_left].
  - apply same_frame_refl.
  - eapply same_frame_trans; [apply same_frame_dispatch | apply IH].
Qed.

(** X4: no sequence of application and window events, from any state,
    builds a window object, removes one, changes the options or the
    listeners of one, or touches the two updater flags.  Events only move
    the handle, put windows on and off screen, and call collaborators. *)
Theorem events_keep_windows_and_flags
  (E : env) (evs : list host_event) (s : state) :
  allocated (deliver E evs s) = allocated s ∧
  autoDownload (deliver E evs s) = autoDownload s ∧
  autoInstallOnAppQuit (deliver E evs s) = autoInstallOnAppQuit s ∧
  dom (windows (deliver E evs s)) = dom (windows s) ∧
  ∀ id w',
    windows (deliver E evs s) !! id = Some w' →
    ∃ w, windows s !! id = Some w ∧
         options w' = options w ∧ listeners w' = listeners w.
Proof.
  destruct (same_frame_deliver E evs s) as (Ha & Hd & Hi & Hw).
  split; [exact Ha |]. split; [exact Hd |]. split; [exact Hi |].
  split.
  - apply set_eq. intros id. rewrite !elem_of_dom.
    rewrite <- (fmap_is_Some shape (windows (deliver E evs s) !! id)).
    rewrite <- (fmap_is_Some shape (windows s !! id)).
    by rewrite Hw.
  - intros id w' Hw'. specialize (Hw id). rewrite Hw' in Hw.
    destruct (windows s !! id) as [w |]; [| discriminate].
    injection Hw as Ho Hl. eauto.
Qed.

Lemma events_keep_windows_and_flags_witness :
  let evs := [ AppEvent "ready"; WindowEvent 0%nat "minimize";
               WindowEvent 1%nat "closed"; AppEvent "activate";
               WindowEvent 0%nat "ready-to-show" ] in
  windows (deliver win32_development evs two_windows) !! 0%nat
    = Some main_window ∧
  allocated (deliver win32_development evs two_windows) = 2%nat ∧
  ∃ w, windows two_windows !! 0%nat = Some w ∧
       options main_window = options w ∧
       listeners main_window = listeners w.
Proof.
  intros evs.
  assert (Hw : windows (deliver win32_development evs two_windows) !! 0%nat
               = Some main_window) by (vm_compute; reflexivity).
  destruct (events_keep_windows_and_flags win32_development evs two_windows)
    as (Ha & _ & _ & _ & Hshape).
  split; [exact Hw |]. split; [exact Ha |].
  exact (Hshape 0%nat main_window Hw).
Defined.

(** ** The handle *)

Lemma keeps_no_window_app_listener (E : env) (l : app_listener) :
  respects keeps_no_window (run_app_listener E l).
Proof.
  intros s [Hm Hw]. destruct l; cbn [run_app_listener].
  - unfold async. cbn [snd].
    destruct (ready_keeps_fields E s) as (Hm' & Hw' & _).
    split; congruence.
  - unfold window_all_closed. destruct (negb _); split; assumption.
  - unfold activate. rewrite Hm. split; assumption.
  - fields s. subst mw ws.
    unfold quit_guard, preventDefault, mainWindow_hide. run. by split.
Qed.

Lemma keeps_no_window_dispatch (E : env) (ev : host_event) :
  respects keeps_no_window (dispatch E ev).
Proof.
  assert (Hrefl : ∀ s, keeps_no_window s s) by (intros s H; exact H).
  assert (Htrans : ∀ s1 s2 s3, keeps_no_window s1 s2 →
                               keeps_no_window s2 s3 → keeps_no_window s1 s3)
    by (intros s1 s2 s3 H12 H23 H; auto).
  destruct ev as [event | id event]; cbn [dispatch].
  - unfold emit_app.
    apply (respects_bind keeps_no_window); [exact Htrans | |].
    + intros s H. exact H.
    + intros _. apply (respects_run_all keeps_no_window);
        [exact Hrefl | exact Htrans |].
      apply Forall_forall. intros c Hc.
      apply list_elem_of_In, in_map_iff in Hc as (l & <- & _).
      apply keeps_no_window_app_listener.
  - intros s [Hm Hw]. unfold emit_window. rewrite Hw, lookup_empty.
    by split.
Qed.

Lemma no_window_deliver (E : env) (evs : list host_event) (s : state) :
  no_window s → no_window (deliver E evs s).
Proof.
  revert s. induction evs as [| ev evs IH]; intros s Hs;
    cbn [deliver fold_left]; [exact Hs |].
  apply IH. by apply keeps_no_window_dispatch.
Qed.

(** X5: from the state in which the module is loaded, whatever the host
    and whatever events are served, the handle still holds undefined and
    no window object exists; so each of the three quit events, whenever it
    comes, ends in the exception of its first listener. *)
Theorem loaded_module_never_gets_a_window
  (E : env) (evs : list host_event) :
  mainWindow (deliver E evs initial_state) = Undefined ∧
  windows (deliver E evs initial_state) = ∅ ∧
  ∀ event, event ∈ QUIT_EVENTS →
    fst (dispatch E (AppEvent event) (deliver E evs initial_state))
      = Throw (NullDereference "hide").
Proof.
  destruct (no_window_deliver E evs initial_state) as [Hm Hw];
    [by split |].
  split; [exact Hm |]. split; [exact Hw |].
  intros event Hev.
  generalize dependent (deliver E evs initial_state). intros s Hm Hw.
  fields s. subst mw. cbn [dispatch]. unfold emit_app.
  rewrite (registered_quit_event event Hev).
  cbn [map run_all run_app_listener].
  unfold quit_guard, preventDefault, mainWindow_hide. run. reflexivity.
Qed.

Lemma loaded_module_never_gets_a_window_witness :
  "quit" ∈ QUIT_EVENTS ∧
  fst (dispatch linux_3_9_0 (AppEvent "quit")
         (deliver linux_3_9_0
            [AppEvent "ready"; AppEvent "activate";
             AppEvent "window-all-closed"] initial_state))
    = Throw (NullDereference "hide").
Proof.
  assert (Hev : "quit" ∈ QUIT_EVENTS)
    by (unfold QUIT_EVENTS; repeat constructor).
  split; [exact Hev |].
  destruct (loaded_module_never_gets_a_window linux_3_9_0
              [AppEvent "ready"; AppEvent "activate";
               AppEvent "window-all-closed"]) as (_ & _ & Hquit).
  exact (Hquit "quit" Hev).
Defined.

Lemma registered_activate :
  registered "activate" app_listeners = [Activate].
Proof. reflexivity. Qed.

(** X6: an 'activate' event restarts nothing unless the handle holds
    null: while it holds undefined (before any startup) or a window object,
    the listener of lines 188-194 leaves the state as it is and calls no
    collaborator. *)
Theorem activate_is_idle_unless_null (E : env) (s : state) :
  mainWindow s ≠ Null →
  dispatch E (AppEvent "activate") s = (Next tt, set_defaultPrevented false s).
Proof.
  intros Hm. fields s. cbn [dispatch]. unfold emit_app.
  rewrite registered_activate. cbn [map run_all run_app_listener].
  unfold activate. run.
  destruct mw; [reflexivity | congruence | reflexivity].
Qed.

Lemma activate_is_idle_unless_null_witness :
  mainWindow initial_state ≠ Null ∧
  dispatch linux_3_9_0 (AppEvent "activate") initial_state
    = (Next tt, set_defaultPrevented false initial_state).
Proof.
  split; [discriminate |].
  apply (activate_is_idle_unless_null linux_3_9_0 initial_state).
  discriminate.
Defined.

Lemma registered_closed :
  registered "closed" main_window_listeners = [OnClosed].
Proof. reflexivity. Qed.

(** X7: once a window wired by the module has been closed, the handle
    holds null, and an 'activate' event then runs the startup listener;
    that run brings no window back: after the two events the handle still
    holds null and the heap has the objects it had. *)
Theorem activate_after_close_recreates_nothing
  (E : env) (s : state) (id : nat) (w : window) :
  windows s !! id = Some w →
  listeners w = main_window_listeners →
  let s' := deliver E [WindowEvent id "closed"; AppEvent "activate"] s in
  mainWindow (snd (dispatch E (WindowEvent id "closed") s)) = Null ∧
  snd (dispatch E (AppEvent "activate")
         (snd (dispatch E (WindowEvent id "closed") s)))
    = snd (ready E (set_defaultPrevented false (set_mainWindow Null s))) ∧
  mainWindow s' = Null ∧
  windows s' = windows s ∧
  allocated s' = allocated s.
Proof.
  intros Hw Hl s'.
  assert (Hclosed : dispatch E (WindowEvent id "closed") s
                    = (Next tt, set_mainWindow Null s)).
  { cbn [dispatch]. unfold emit_window. rewrite Hw, Hl, registered_closed.
    fields s. cbn [map run_all run_window_listener]. run. reflexivity. }
  assert (Hactivate : ∀ s0, mainWindow s0 = Null →
            snd (dispatch E (AppEvent "activate") s0)
            = snd (ready E (set_defaultPrevented false s0))).
  { intros s0 Hm0. fields s0. subst mw. cbn [dispatch]. unfold emit_app.
    rewrite registered_activate. cbn [map run_all run_app_listener].
    unfold activate. run.
    destruct (ready E _) as [[[] | | e] s1]; reflexivity. }
  subst s'. cbn [deliver fold_left]. rewrite Hclosed. cbn [snd].
  rewrite (Hactivate (set_mainWindow Null s)) by reflexivity.
  split; [reflexivity |]. split; [reflexivity |].
  destruct (ready_keeps_fields E
              (set_defaultPrevented false (set_mainWindow Null s)))
    as (Hm' & Hw' & Ha' & _).
  split; [exact Hm' |]. split; [exact Hw' | exact Ha'].
Qed.

Lemma activate_after_close_recreates_nothing_witness :
  windows two_windows !! 1%nat = Some (set_visible true main_window) ∧
  listeners (set_visible true main_window) = main_window_listeners ∧
  mainWindow (deliver linux_3_9_0
                [WindowEvent 1%nat "closed"; AppEvent "activate"] two_windows)
    = Null ∧
  allocated (deliver linux_3_9_0
               [WindowEvent 1%nat "closed"; AppEvent "activate"] two_windows)
    = 2%nat.
Proof.
  assert (Hw : windows two_windows !! 1%nat
               = Some (set_visible true main_window))
    by (vm_compute; reflexivity).
  split; [exact Hw |]. split; [reflexivity |].
  destruct (activate_after_close_recreates_nothing linux_3_9_0 two_windows
              1%nat (set_visible true main_window) Hw eq_refl)
    as (_ & _ & Hm & _ & Ha).
  split; [exact Hm | exact Ha].
Defined.

(** ** The preference gates and the window, lines 92-176 *)

Lemma configure_and_open_after_first_read (E : env) (s : state) :
  configure_and_open E s =
    bind (updatesEnabled_gate E) (λ _, create_main_window E)
      (log (SettingsGet "errorReporting") s).
Proof.
  unfold configure_and_open. unfold bind at 1.
  by rewrite errorReporting_gate_reads_only.
Qed.

Lemma updatesEnabled_gate_on (E : env) (s : state) :
  truthy (settings E !! "updatesEnabled") = true →
  updatesEnabled_gate E s = (Next tt, log (SettingsGet "updatesEnabled") s).
Proof.
  intros Hon. unfold updatesEnabled_gate, settings_get. run.
  rewrite Hon. reflexivity.
Qed.

(** X8: the errorReporting preference has no effect on lines 92-176:
    storing true, storing false or removing the key gives the same outcome,
    the same state and the same calls; and the block of lines 92-96 behaves
    the same on any two hosts, development build or not. *)
Theorem errorReporting_setting_has_no_effect
  (E E' : env) (v : option bool) (s : state) :
  configure_and_open (with_setting "errorReporting" v E) s
    = configure_and_open E s ∧
  errorReporting_gate E' s = errorReporting_gate E s.
Proof.
  split; [| by rewrite !errorReporting_gate_reads_only].
  rewrite !configure_and_open_after_first_read.
  assert (Hread : settings (with_setting "errorReporting" v E)
                    !! "updatesEnabled" = settings E !! "updatesEnabled").
  { destruct v; cbn [with_setting settings];
      [by rewrite lookup_insert_ne | by rewrite lookup_delete_ne]. }
  assert (Hgate : updatesEnabled_gate (with_setting "errorReporting" v E)
                  = updatesEnabled_gate E).
  { unfold updatesEnabled_gate, settings_get. by rewrite Hread. }
  rewrite Hgate. reflexivity.
Qed.

(** X9: lines 98-103 can only switch the updater flags off.  After lines
    92-176 each flag is what it was if the updatesEnabled preference is
    stored as true, and false if it is stored as false or is missing. *)
Theorem updates_gate_only_switches_off (E : env) (s : state) :
  ∃ s1,
    configure_and_open E s = (Next tt, s1) ∧
    autoDownload s1
      = truthy (settings E !! "updatesEnabled") && autoDownload s ∧
    autoInstallOnAppQuit s1
      = truthy (settings E !! "updatesEnabled") && autoInstallOnAppQuit s ∧
    (settings E !! "updatesEnabled" = None → updates_off s1).
Proof.
  rewrite configure_and_open_after_first_read. unfold bind at 1.
  destruct (truthy (settings E !! "updatesEnabled")) eqn:Hv.
  - rewrite (updatesEnabled_gate_on E _ Hv), create_main_window_result.
    eexists. split; [reflexivity |]. fields s. run.
    split; [reflexivity |]. split; [reflexivity |].
    intros Hnone. rewrite Hnone in Hv. discriminate.
  - rewrite (updatesEnabled_gate_off E _ Hv), create_main_window_result.
    eexists. split; [reflexivity |]. fields s. run.
    split; [reflexivity |]. split; [reflexivity |].
    intros _. by split.
Qed.

Lemma updates_gate_only_switches_off_witness :
  settings freebsd_x64 !! "updatesEnabled" = None ∧
  ∃ s1,
    configure_and_open freebsd_x64 initial_state = (Next tt, s1) ∧
    updates_off s1.
Proof.
  assert (Hnone : settings freebsd_x64 !! "updatesEnabled" = None)
    by reflexivity.
  split; [exact Hnone |].
  destruct (updates_gate_only_switches_off freebsd_x64 initial_state)
    as (s1 & Hrun & _ & _ & Hoff).
  exists s1. split; [exact Hrun | exact (Hoff Hnone)].
Defined.

(** X10: building the window opens the developer tools exactly when
    NODE_ENV is 'development', on the window just built and on no other,
    once, after the document was loaded. *)
Theorem devtools_only_in_development (E : env) (s : state) :
  let id := allocated s in
  ∃ s1,
    create_main_window E s = (Next tt, s1) ∧
    trace s1 = trace s ++ creation_trace E id ∧
    (OpenDevTools id ∈ creation_trace E id
     ↔ NODE_ENV E = Some "development") ∧
    (∀ id', id' ≠ id → OpenDevTools id' ∉ creation_trace E id) ∧
    (NODE_ENV E = Some "development" →
     ∃ listeners_on,
       creation_trace E id
         = [ NewBrowserWindow id main_window_options;
             BuildWindowMenu (Ref id);
             LoadURL id (index_url E);
             OpenDevTools id ] ++ listeners_on ∧
       OpenDevTools id ∉ listeners_on).
Proof.
  intros id. eexists. split; [apply create_main_window_result |].
  split; [reflexivity |].
  unfold creation_trace, isDevelopment.
  case_bool_decide as Hdev; cbn [app].
  - split; [split; [done | intros _; do 3 right; left] |].
    split.
    + intros id' Hid Hin.
      repeat (apply elem_of_cons in Hin as [Hin | Hin];
              [congruence |]).
      by apply elem_of_nil in Hin.
    + intros _. eexists. split; [reflexivity |]. intros Hin.
      repeat (apply elem_of_cons in Hin as [Hin | Hin]; [discriminate |]).
      by apply elem_of_nil in Hin.
  - split; [| split; [| done]].
    + split; [| done]. intros Hin.
      repeat (apply elem_of_cons in Hin as [Hin | Hin]; [discriminate |]).
      by apply elem_of_nil in Hin.
    + intros id' Hid Hin.
      repeat (apply elem_of_cons in Hin as [Hin | Hin]; [discriminate |]).
      by apply elem_of_nil in Hin.
Qed.

Lemma devtools_only_in_development_witness :
  NODE_ENV win32_development = Some "development" ∧
  OpenDevTools 0%nat ∈ creation_trace win32_development 0%nat.
Proof.
  assert (Hdev : NODE_ENV win32_development = Some "development")
    by reflexivity.
  split; [exact Hdev |].
  destruct (devtools_only_in_development win32_development initial_state)
    as (s1 & _ & _ & Hiff & _).
  by apply Hiff.
Defined.

(** ** Window listeners and the handle *)

Lemma registered_minimize :
  registered "minimize" main_window_listeners = [OnMinimize].
Proof. reflexivity. Qed.

Lemma registered_ready_to_show :
  registered "ready-to-show" main_window_listeners = [OnReadyToShow].
Proof. reflexivity. Qed.

(** X11: the listeners of lines 155-158 and 173-176 act on the window
    behind the global handle, not on the window that fired the event.
    With two windows on the heap, a 'minimize' fired by the one the handle
    does not hold hides the other one, and a 'ready-to-show' fired by it
    shows the other one; the window that fired is left as it was. *)
Theorem listeners_act_on_the_handle
  (E : env) (s : state) (a b : nat) (wa wb : window) :
  a ≠ b →
  mainWindow s = Ref b →
  windows s !! a = Some wa →
  listeners wa = main_window_listeners →
  windows s !! b = Some wb →
  (∃ s1, dispatch E (WindowEvent a "minimize") s = (Next tt, s1) ∧
         windows s1 !! b = Some (set_visible false wb) ∧
         windows s1 !! a = Some wa ∧
         trace s1 = trace s ++ [WindowHide b]) ∧
  (∃ s1, dispatch E (WindowEvent a "ready-to-show") s = (Next tt, s1) ∧
         windows s1 !! b = Some (set_visible true wb) ∧
         windows s1 !! a = Some wa ∧
         trace s1 = trace s ++ [WindowShow b]).
Proof.
  intros Hab Hm Ha Hl Hb.
  cbn [dispatch]. unfold emit_window. rewrite Ha, Hl.
  rewrite registered_minimize, registered_ready_to_show.
  cbn [map run_all run_window_listener].
  fields s. subst mw.
  unfold mainWindow_hide, mainWindow_show. run.
  split; eexists; (split; [reflexivity |]); run;
    rewrite lookup_alter_eq, Hb, lookup_alter_ne, Ha by congruence; done.
Qed.

Lemma listeners_act_on_the_handle_witness :
  0%nat ≠ 1%nat ∧
  mainWindow two_windows = Ref 1%nat ∧
  ∃ s1, dispatch linux_3_9_0 (WindowEvent 0%nat "minimize") two_windows
          = (Next tt, s1) ∧
        windows s1 !! 1%nat = Some main_window ∧
        windows s1 !! 0%nat = Some main_window.
Proof.
  split; [discriminate |]. split; [reflexivity |].
  destruct (listeners_act_on_the_handle linux_3_9_0 two_windows 0%nat 1%nat
              main_window (set_visible true main_window))
    as [(s1 & Hrun & Hb & Ha & _) _];
    [discriminate | reflexivity | vm_compute; reflexivity | reflexivity
    | vm_compute; reflexivity |].
  exists s1. split; [exact Hrun |]. split; [exact Hb | exact Ha].
Defined.

(** X12: after the handle was cleared, or before it was assigned, a
    'ready-to-show' or a 'minimize' event of a window that is still on the
    heap throws at the member read of the handle (lines 157 and 175),
    leaving the state untouched: nothing is shown and nothing is hidden. *)
Theorem window_listeners_throw_without_handle
  (E : env) (s : state) (id : nat) (w : window) :
  windows s !! id = Some w →
  listeners w = main_window_listeners →
  mainWindow s = Null ∨ mainWindow s = Undefined →
  dispatch E (WindowEvent id "ready-to-show") s
    = (Throw (NullDereference "show"), s) ∧
  dispatch E (WindowEvent id "minimize") s
    = (Throw (NullDereference "hide"), s).
Proof.
  intros Hw Hl Habsent.
  cbn [dispatch]. unfold emit_window. rewrite Hw, Hl.
  rewrite registered_minimize, registered_ready_to_show.
  cbn [map run_all run_window_listener].
  fields s.
  unfold mainWindow_hide, mainWindow_show. run.
  destruct Habsent as [-> | ->]; split; reflexivity.
Qed.

Lemma window_listeners_throw_without_handle_witness :
  windows after_close !! 0%nat = Some main_window ∧
  listeners main_window = main_window_listeners ∧
  mainWindow after_close = Null ∧
  dispatch linux_3_9_0 (WindowEvent 0%nat "ready-to-show") after_close
    = (Throw (NullDereference "show"), after_close).
Proof.
  assert (Hw : windows after_close !! 0%nat = Some main_window)
    by (vm_compute; reflexivity).
  assert (Hm : mainWindow after_close = Null) by (vm_compute; reflexivity).
  split; [exact Hw |]. split; [reflexivity |]. split; [exact Hm |].
  apply (window_listeners_throw_without_handle linux_3_9_0 after_close
           0%nat main_window Hw eq_refl (or_introl Hm)).
Defined.

(** ** Quit events *)

(** X13: with a window object behind the handle, a 'before-quit',
    'will-quit' or 'quit' event completes without exception, leaves that
    window off screen and the event cancelled, keeps the handle, and
    touches no other window. *)
Theorem quit_event_puts_window_off_screen
  (E : env) (event : string) (s : state) (id : nat) (w : window) :
  event ∈ QUIT_EVENTS →
  mainWindow s = Ref id →
  windows s !! id = Some w →
  ∃ s',
    dispatch E (AppEvent event) s = (Next tt, s') ∧
    windows s' !! id = Some (set_visible false w) ∧
    (∀ id', id' ≠ id → windows s' !! id' = windows s !! id') ∧
    mainWindow s' = Ref id ∧
    defaultPrevented s' = true.
Proof.
  intros Hev Hm Hw. fields s. subst mw.
  cbn [dispatch]. unfold emit_app.
  rewrite (registered_quit_event event Hev).
  cbn [map run_all run_app_listener].
  unfold quit_guard, preventDefault, mainWindow_hide. run.
  eexists. split; [reflexivity |]. run.
  split; [by rewrite !lookup_alter_eq, Hw |].
  split; [| by split].
  intros id' Hid. by rewrite !lookup_alter_ne.
Qed.

Lemma quit_event_puts_window_off_screen_witness :
  "before-quit" ∈ QUIT_EVENTS ∧
  mainWindow two_windows = Ref 1%nat ∧
  windows two_windows !! 1%nat = Some (set_visible true main_window) ∧
  ∃ s', dispatch linux_3_9_0 (AppEvent "before-quit") two_windows
          = (Next tt, s') ∧
        windows s' !! 1%nat = Some main_window.
Proof.
  assert (Hev : "before-quit" ∈ QUIT_EVENTS)
    by (unfold QUIT_EVENTS; repeat constructor).
  assert (Hw : windows two_windows !! 1%nat
               = Some (set_visible true main_window))
    by (vm_compute; reflexivity).
  split; [exact Hev |]. split; [reflexivity |]. split; [exact Hw |].
  destruct (quit_event_puts_window_off_screen linux_3_9_0 "before-quit"
              two_windows 1%nat (set_visible true main_window) Hev eq_refl Hw)
    as (s' & Hrun & Hoff & _).
  exists s'. split; [exact Hrun | exact Hoff].
Defined.

(** X14: whatever the handle holds, the dispatch of a 'before-quit',
    'will-quit' or 'quit' event ends with the event cancelled, and on the
    way the module calls neither [app.quit] nor [app.exit]: its listeners
    only cancel and hide. *)
Theorem quit_events_end_cancelled (E : env) (event : string) (s : state) :
  event ∈ QUIT_EVENTS →
  ∃ t,
    trace (snd (dispatch E (AppEvent event) s)) = trace s ++ t ∧
    defaultPrevented (snd (dispatch E (AppEvent event) s)) = true ∧
    PreventDefault ∈ t ∧
    (AppQuit ∉ t) ∧
    (∀ code, AppExit code ∉ t) ∧
    (∀ e, e ∈ t → e = PreventDefault ∨ ∃ id, e = WindowHide id).
Proof.
  intros Hev. fields s. cbn [dispatch]. unfold emit_app.
  rewrite (registered_quit_event event Hev).
  cbn [map run_all run_app_listener].
  unfold quit_guard, preventDefault, mainWindow_hide.
  assert (Honly : ∀ t : list effect,
            (∀ e, e ∈ t → e = PreventDefault ∨ ∃ id, e = WindowHide id) →
            (AppQuit ∉ t) ∧ (∀ code, AppExit code ∉ t) ∧
            (∀ e, e ∈ t → e = PreventDefault ∨ ∃ id, e = WindowHide id)).
  { intros t Ht. split; [| split; [| exact Ht]].
    - intros Hin. destruct (Ht _ Hin) as [? | [? ?]]; discriminate.
    - intros code Hin. destruct (Ht _ Hin) as [? | [? ?]]; discriminate. }
  destruct mw as [| | id]; run.
  - exists [PreventDefault]. split; [reflexivity |]. split; [reflexivity |].
    split; [left |]. apply Honly. intros e ->%list_elem_of_singleton. by left.
  - exists [PreventDefault]. split; [reflexivity |]. split; [reflexivity |].
    split; [left |]. apply Honly. intros e ->%list_elem_of_singleton. by left.
  - exists [ PreventDefault; WindowHide id; PreventDefault; WindowHide id;
             PreventDefault; WindowHide id ].
    split; [by rewrite <- !app_assoc |]. split; [reflexivity |].
    split; [left |]. apply Honly. intros e Hin.
    repeat (apply elem_of_cons in Hin as [-> | Hin]; [eauto |]).
    by apply elem_of_nil in Hin.
Qed.

Lemma quit_events_end_cancelled_witness :
  "will-quit" ∈ QUIT_EVENTS ∧
  defaultPrevented
    (snd (dispatch linux_3_9_0 (AppEvent "will-quit") initial_state)) = true.
Proof.
  assert (Hev : "will-quit" ∈ QUIT_EVENTS)
    by (unfold QUIT_EVENTS; repeat constructor).
  split; [exact Hev |].
  destruct (quit_events_end_cancelled linux_3_9_0 "will-quit" initial_state Hev)
    as (t & _ & Hcancelled & _).
  exact Hcancelled.
Defined.

(** ** The startup listener and lines 92-176 *)

(** C5, at Linux on x64 with the updatesEnabled preference stored as
    false: the startup listener throws at line 84 and never gets to lines
    98-103.  It reads no setting and leaves [autoDownload] and
    [autoInstallOnAppQuit] as electron-updater set them, and no event
    served afterwards switches them off either. *)
Theorem linux_startup_leaves_updates_on :
  settings linux_3_9_0 !! "updatesEnabled" = Some false ∧
  ready linux_3_9_0 initial_state
    = (Throw (InvalidVersion (Some "linux")), initial_state) ∧
  autoDownload (snd (ready linux_3_9_0 initial_state)) = true ∧
  autoInstallOnAppQuit (snd (ready linux_3_9_0 initial_state)) = true ∧
  (SettingsGet "updatesEnabled"
     ∉ trace (snd (ready linux_3_9_0 initial_state))) ∧
  ∀ evs,
    autoDownload (deliver linux_3_9_0 evs initial_state) = true ∧
    autoInstallOnAppQuit (deliver linux_3_9_0 evs initial_state) = true.
Proof.
  assert (Hrun : ready linux_3_9_0 initial_state
                 = (Throw (InvalidVersion (Some "linux")), initial_state))
    by (apply (ready_throws_on_supported_host linux_3_9_0); reflexivity).
  split; [reflexivity |]. split; [exact Hrun |]. rewrite Hrun.
  split; [reflexivity |]. split; [reflexivity |].
  split; [by intros Hin%elem_of_nil |].
  intros evs.
  destruct (same_frame_deliver linux_3_9_0 evs initial_state)
    as (_ & Hdown & Hinst & _).
  split; [exact Hdown | exact Hinst].
Qed.

(** C8, at Linux on x64: the startup listener throws at line 84 and never
    gets to line 106.  No window object is built, the handle is not
    assigned, and no event served afterwards builds one: the heap stays
    empty and the handle undefined. *)
Theorem linux_startup_builds_no_window :
  ready linux_3_9_0 initial_state
    = (Throw (InvalidVersion (Some "linux")), initial_state) ∧
  mainWindow (snd (ready linux_3_9_0 initial_state)) = Undefined ∧
  windows (snd (ready linux_3_9_0 initial_state)) = ∅ ∧
  (∀ id o,
     NewBrowserWindow id o ∉ trace (snd (ready linux_3_9_0 initial_state))) ∧
  ∀ evs,
    mainWindow (deliver linux_3_9_0 evs initial_state) = Undefined ∧
    windows (deliver linux_3_9_0 evs initial_state) = ∅.
Proof.
  assert (Hrun : ready linux_3_9_0 initial_state
                 = (Throw (InvalidVersion (Some "linux")), initial_state))
    by (apply (ready_throws_on_supported_host linux_3_9_0); reflexivity).
  split; [exact Hrun |]. rewrite Hrun.
  split; [reflexivity |]. split; [reflexivity |].
  split; [by intros id o Hin%elem_of_nil |].
  intros evs. apply no_window_deliver. by split.
Qed.
